(** * osmosis/emd/pyemd.c: the Python binding of the Earth Mover's Distance

    [compute_emd] (pyemd.c, lines 13-100) receives three Python objects,
    checks and converts them into two signatures and a flattened cost
    array of C [float]s, calls the solver [emd] declared in emd.h, and
    wraps the distance in a Python float.

    Conventions of the embedding:
    - C [int] is 32 bits, [Py_ssize_t] and [size_t] are 64 bits; all are
      carried by [Z], the conversions between them are written out
      ([int_of_ssize], [alloca_request]);
    - C [double] and [float] are the binary64 and binary32 formats of
      [SpecFloat];
    - the build is the Python 3 one (lines 5-10: [PyInt_Check] is
      [PyLong_Check]);
    - a [NULL] result of the C API is [None].

    The function is embedded twice.
    - [compute_emd_args] and [compute_emd] are the function on arguments of
      the built-in types float, int, None, str, list, tuple and range (a
      value of [PyObject]), of fewer than 2^63 items, which answer every
      call of the C API alike, and on a stack that holds the three arrays of
      lines 52-54.
    - [compute_emd_run] and [compute_emd_on] are the function on arguments of
      any type ([PyArgument]: what [PySequence_Size] and [PySequence_GetItem]
      answer may change from one call to the next, and either may fail) and
      on a stack of a given size, which [alloca] can exhaust.
    [compute_emd_run_builtin] shows that the second is the first where the
    assumptions of the first hold. *)

From Stdlib Require Import ZArith List String Ascii Bool Lia.
From Stdlib Require Import Floats.SpecFloat.
Import ListNotations.
Set Warnings "-register-all".
Open Scope Z_scope.

(** ** C numbers *)

Definition INT_MAX : Z := 2147483647.

(** [int x = (Py_ssize_t) v]: the value is reduced modulo 2^32 into the
    range of [int]. *)
Definition int_of_ssize (v : Z) : Z := (v + 2 ^ 31) mod 2 ^ 32 - 2 ^ 31.

Definition c_double : Type := spec_float.

(** The values of a C [float] are the data of [spec_float] that are valid in
    binary32, [valid_binary 24 128].  The type does not say so by itself:
    the arrays the binding fills hold such values only ([floats_from_valid]),
    and a statement about the [float] the solver hands back says it of that
    value. *)
Definition c_float : Type := spec_float.

(** The conversion [(float) x] of an assignment such as [w1[i] = <double>]:
    round to nearest, ties to even, in binary32. *)
Definition double_to_float (x : c_double) : c_float :=
  match x with
  | S754_finite s m e => binary_round 24 128 s m e
  | _ => x
  end.

(** The promotion of a [float] to [double] (here: the variadic argument of
    [Py_BuildValue]): the same number in the binary64 format. *)
Definition float_to_double (x : c_float) : c_double :=
  match x with
  | S754_finite s m e => binary_round 53 1024 s m e
  | _ => x
  end.

Definition double_of_Z (z : Z) : c_double := binary_normalize 53 1024 z 0 false.
Definition float_of_Z (z : Z) : c_float := binary_normalize 24 128 z 0 false.

Definition double_minus_one : c_double := double_of_Z (-1).

(** ** Python objects *)

Inductive PyObject : Type :=
| PyFloat (d : c_double)
| PyLong (z : Z)
| PyNone
| PyUnicode (s : string)
| PyList (items : list PyObject)
| PyTuple (items : list PyObject)
| PyRange (stop : Z).

Inductive PyExc : Type :=
| PyExc_TypeError
| PyExc_OverflowError
| PyExc_Exception.   (* any other exception, such as one raised by the
                        Python code of an argument *)

(** [PySequence_Check(o)]: does the type of [o] provide the sequence
    protocol. *)
Definition PySequence_Check (o : PyObject) : bool :=
  match o with
  | PyUnicode _ | PyList _ | PyTuple _ | PyRange _ => true
  | PyFloat _ | PyLong _ | PyNone => false
  end.

(** [PySequence_Size(o)] for the built-in types: the number of items, and
    [-1] for an object that is no sequence.  The number is the one the C
    function returns as long as it is a [Py_ssize_t], that is below 2^63;
    for a longer range the C function fails ([PySequence_Size_at] has that
    case). *)
Definition PySequence_Size (o : PyObject) : Z :=
  match o with
  | PyUnicode s => Z.of_nat (String.length s)
  | PyList l | PyTuple l => Z.of_nat (List.length l)
  | PyRange stop => Z.max 0 stop
  | PyFloat _ | PyLong _ | PyNone => -1
  end.

(** [PySequence_GetItem(o, i)] for the built-in types: the item, or [NULL]
    (with IndexError or TypeError set) when there is none.  As the C API
    does, a negative index is first counted from the end.  These types have
    an item at every index below their size; other types need not
    ([PySequence_GetItem_at]). *)
Definition PySequence_GetItem (o : PyObject) (i : Z) : option PyObject :=
  let j := if i <? 0 then i + PySequence_Size o else i in
  if j <? 0 then None else
  match o with
  | PyUnicode s =>
      match String.get (Z.to_nat j) s with
      | Some c => Some (PyUnicode (String c EmptyString))
      | None => None
      end
  | PyList l | PyTuple l => nth_error l (Z.to_nat j)
  | PyRange stop => if j <? stop then Some (PyLong j) else None
  | PyFloat _ | PyLong _ | PyNone => None
  end.

Definition PyFloat_Check (o : PyObject) : bool :=
  match o with PyFloat _ => true | _ => false end.

Definition PyInt_Check (o : PyObject) : bool :=
  match o with PyLong _ => true | _ => false end.

(** [PyFloat_AsDouble(o)]: the double, and the exception the call leaves
    set, if any.  An int is rounded to the nearest double; an int too large
    for a double gives [-1.0] with OverflowError set, an object that is no
    number [-1.0] with TypeError set. *)
Definition PyFloat_AsDouble (o : PyObject) : c_double * option PyExc :=
  match o with
  | PyFloat d => (d, None)
  | PyLong z =>
      match double_of_Z z with
      | S754_infinity _ => (double_minus_one, Some PyExc_OverflowError)
      | d => (d, None)
      end
  | _ => (double_minus_one, Some PyExc_TypeError)
  end.

(** ** The solver's interface (emd.h) *)

(** [signature_t]; the [Features] field is not set by the binding
    (lines 90 and 94 are commented out). *)
Record signature_t : Type := { n : Z; Weights : list c_float }.

(** The failures the specification gives the solver. *)
Inductive emd_error : Type :=
| InvalidInputError
| ConvergenceError
| NumericalError.

(** What a call [emd(&signature1, &signature2, c, 0, 0)] yields: a distance
    as a C [float], or no distance at all when the solver stops on one of
    its failures. *)
Inductive emd_result : Type :=
| Distance (d : c_float)
| Failure (e : emd_error).

(** ** Outcomes of the binding *)

Inductive undefined : Type :=
| NullItem        (* a NULL item handed to PyFloat_Check *)
| IntOverflow     (* length1 * length2 is outside the range of int *)
| StackExhausted. (* alloca asked for more than the stack holds *)

(** [Normal a pending]: the code ran on with [a]; [pending] is the
    exception a failed [PyFloat_AsDouble] or [PySequence_Size] has left set,
    which the binding never examines.  A call that ends in
    [Normal v (Some _)] hands a value back to the interpreter while an
    exception is set (the interpreter turns this into a SystemError).
    After [Undefined u] the C language gives the run no meaning: the
    process may stop there or run on, the solver included. *)
Inductive outcome (A : Type) : Type :=
| Normal (a : A) (pending : option PyExc)
| Raised (exc : PyExc) (msg : string)   (* return NULL, exception set *)
| Undefined (u : undefined)             (* C undefined behaviour *)
| SolverFailed (e : emd_error).         (* emd() gave no distance *)

Arguments Normal {A} a pending.
Arguments Raised {A} exc msg.
Arguments Undefined {A} u.
Arguments SolverFailed {A} e.

Definition later (p q : option PyExc) : option PyExc :=
  match q with Some _ => q | None => p end.

Definition bind {A B : Type} (m : outcome A) (k : A -> outcome B) : outcome B :=
  match m with
  | Normal a p =>
      match k a with
      | Normal b q => Normal b (later p q)
      | o => o
      end
  | Raised exc msg => Raised exc msg
  | Undefined u => Undefined u
  | SolverFailed e => SolverFailed e
  end.

Notation "x <- m ;; k" := (bind m (fun x => k))
  (at level 61, m at next level, right associativity).

(** ** compute_emd *)

(** One of the three element loops (lines 56-65, 67-76, 78-87), which differ
    in the sequence read, the bound and the message only:
<<
    for(i = 0; i < bound; i ++) {
      item = PySequence_GetItem(seq, i);
      if(!PyFloat_Check(item) && !PyInt_Check(item)) {
        Py_DECREF(item);
        PyErr_SetString(PyExc_TypeError, msg);
        return NULL;
      }
      a[i] = PyFloat_AsDouble(item);
      Py_DECREF(item);
    }
>>
    [count] is the number of iterations left, [i] the loop variable.  A
    NULL [item] reaches [PyFloat_Check], which reads through it. *)
Fixpoint read_items (seq : PyObject) (msg : string) (count : nat) (i : Z)
  : outcome (list c_float) :=
  match count with
  | O => Normal [] None
  | S count' =>
      match PySequence_GetItem seq i with
      | None => Undefined NullItem
      | Some item =>
          if negb (PyFloat_Check item) && negb (PyInt_Check item)
          then Raised PyExc_TypeError msg
          else
            d <- (let '(d, pending) := PyFloat_AsDouble item in
                  Normal d pending) ;;
            rest <- read_items seq msg count' (i + 1) ;;
            Normal (double_to_float d :: rest) None
      end
  end.

(** Lines 25-95: everything before the call of the solver.  The three
    objects are the ones [PyArg_ParseTupleAndKeywords] stored for
    [weight1], [weight2] and [cost].  The two calls of [PySequence_Size] on
    a weight give the same number, and the three calls of [alloca] of lines
    52-54 are taken to find the room they ask for; [compute_emd_run] is the
    same code without these two assumptions. *)
Definition compute_emd_args (weight1 weight2 cost : PyObject)
  : outcome (signature_t * signature_t * list c_float) :=
  if negb (PySequence_Check weight1)
  then Raised PyExc_TypeError "weight1 must be a sequence" else
  if negb (PySequence_Check weight2)
  then Raised PyExc_TypeError "weight2 must be a sequence" else
  let length1 := int_of_ssize (PySequence_Size weight1) in
  let length2 := int_of_ssize (PySequence_Size weight2) in
  if negb (PySequence_Size weight1 =? length1)
  then Raised PyExc_TypeError "feature1 and weight1 must be the same" else
  if negb (PySequence_Size weight2 =? length2)
  then Raised PyExc_TypeError "feature2 and weight2 must be the same" else
  if INT_MAX <? length1 * length2
  then Undefined IntOverflow else
  w1 <- read_items weight1 "w1 should be a sequence of numbers"
          (Z.to_nat length1) 0 ;;
  w2 <- read_items weight2 "w2 should be a sequence of numbers"
          (Z.to_nat length2) 0 ;;
  c <- read_items cost "cost should be a sequence of numbers"
          (Z.to_nat (length1 * length2)) 0 ;;
  Normal ({| n := length1; Weights := w1 |},
          {| n := length2; Weights := w2 |}, c) None.

Section Binding.

Variable emd : signature_t -> signature_t -> list c_float -> emd_result.

(** Lines 97-99: the call of the solver and [Py_BuildValue("d", distance)]. *)
Definition call_emd (a : signature_t * signature_t * list c_float)
  : outcome PyObject :=
  let '(signature1, signature2, c) := a in
  match emd signature1 signature2 c with
  | Distance distance => Normal (PyFloat (float_to_double distance)) None
  | Failure e => SolverFailed e
  end.

Definition compute_emd (weight1 weight2 cost : PyObject) : outcome PyObject :=
  a <- compute_emd_args weight1 weight2 cost ;;
  call_emd a.

End Binding.

(** The code before line 97 runs to its end, nothing raised and every step
    defined, so that line 97 calls the solver.  (Where the code before line
    97 has no defined behaviour, this is [false], and nothing is said of
    what the machine does then.) *)
Definition solver_invoked (weight1 weight2 cost : PyObject) : bool :=
  match compute_emd_args weight1 weight2 cost with
  | Normal _ _ => true
  | _ => false
  end.

Definition is_number (o : PyObject) : bool := PyFloat_Check o || PyInt_Check o.

(** ** The solver [emd], modelled from the specification

    emd.h declares [emd]; its definition is not part of the sources at hand.
    The definitions of this part follow sections 3, 4 and 7 of the
    specification, over the C [float]s the binding hands over. *)

Definition f32_add : c_float -> c_float -> c_float := SFadd 24 128.
Definition f32_sub : c_float -> c_float -> c_float := SFsub 24 128.
Definition f32_mul : c_float -> c_float -> c_float := SFmul 24 128.
Definition fzero : c_float := S754_zero false.

(** Comparison by value.  [SFcompare] reads the order of two finite numbers
    off their exponents and mantissas, which is their order by value on
    canonical data only; here two finite numbers are brought to their
    common exponent first, as [SFadd] and [SFsub] do. *)
Definition fcompare (x y : spec_float) : option comparison :=
  match x, y with
  | S754_finite sx mx ex, S754_finite sy my ey =>
      let ez := Z.min ex ey in
      Some (Z.compare (cond_Zopp sx (Zpos (fst (shl_align mx ex ez))))
                      (cond_Zopp sy (Zpos (fst (shl_align my ey ez)))))
  | _, _ => SFcompare x y
  end.

Definition fltb (x y : spec_float) : bool :=
  match fcompare x y with Some Lt => true | _ => false end.

Definition fleb (x y : spec_float) : bool :=
  match fcompare x y with Some (Lt | Eq) => true | _ => false end.

Definition feqb (x y : spec_float) : bool :=
  match fcompare x y with Some Eq => true | _ => false end.

Definition is_nan (x : spec_float) : bool :=
  match x with S754_nan => true | _ => false end.

(** Modelled from the spec: the tolerance of the optimality test of
    section 4.2, 1e-7. *)
Definition epsilon : c_float :=
  SFdiv 24 128 (float_of_Z 1) (float_of_Z 10000000).

Definition cell : Type := (nat * nat)%type.

Definition cell_eqb (a b : cell) : bool :=
  Nat.eqb (fst a) (fst b) && Nat.eqb (snd a) (snd b).

Definition in_cells (a : cell) (l : list cell) : bool := existsb (cell_eqb a) l.

(** Modelled from the spec: a basic cell of the FlowAssignment of section 3
    with its flow. *)
Record bvar : Type := { row : nat; col : nat; flow : c_float }.

Definition cell_of (b : bvar) : cell := (row b, col b).

(** Modelled from the spec: the balanced transportation problem, that is
    the two distributions, with the dump bin when the totals differ, and
    the cost matrix by rows.
    [real_rows] and [real_cols] are the bin counts of the distributions
    themselves. *)
Record transport : Type := {
  supply : list c_float;
  demand : list c_float;
  costs : list (list c_float);
  real_rows : nat;
  real_cols : nat
}.

Definition rows (t : transport) : nat := List.length (supply t).
Definition cols (t : transport) : nat := List.length (demand t).

Definition cost_at (t : transport) (ij : cell) : c_float :=
  nth (snd ij) (nth (fst ij) (costs t) []) fzero.

(** The cells in row-major scan order. *)
Definition scan (t : transport) : list cell :=
  list_prod (seq 0 (rows t)) (seq 0 (cols t)).

Fixpoint set_nth {A : Type} (k : nat) (a : A) (l : list A) : list A :=
  match l, k with
  | [], _ => []
  | _ :: l', O => a :: l'
  | x :: l', S k' => x :: set_nth k' a l'
  end.

(** The first element with the smallest key: a later element replaces the
    best one only when its key is strictly smaller. *)
Definition argmin {A : Type} (key : A -> c_float) (l : list A) : option A :=
  match l with
  | [] => None
  | x :: l' =>
      Some (fold_left (fun best y => if fltb (key y) (key best) then y else best)
                      l' x)
  end.

Definition fsum (l : list c_float) : c_float := fold_left f32_add l fzero.

Fixpoint chunks (width count : nat) (l : list c_float) : list (list c_float) :=
  match count with
  | O => []
  | S count' => firstn width l :: chunks width count' (skipn width l)
  end.

(** Modelled from the spec: section 4.1, when the totals differ the smaller
    side gets a zero-cost dump bin that absorbs the excess. *)
Definition balance (w1 w2 c : list c_float) : transport :=
  let n1 := List.length w1 in
  let n2 := List.length w2 in
  let total1 := fsum w1 in
  let total2 := fsum w2 in
  let m := chunks n2 n1 c in
  if fltb total2 total1 then
    {| supply := w1; demand := w2 ++ [f32_sub total1 total2];
       costs := map (fun r => r ++ [fzero]) m;
       real_rows := n1; real_cols := n2 |}
  else if fltb total1 total2 then
    {| supply := w1 ++ [f32_sub total2 total1]; demand := w2;
       costs := m ++ [repeat fzero n2];
       real_rows := n1; real_cols := n2 |}
  else
    {| supply := w1; demand := w2; costs := m;
       real_rows := n1; real_cols := n2 |}.

(** *** 4.1 Basic Feasible Solution Builder *)

(** Modelled from the spec: the builder of section 4.1, missing with the
    solver.  Lowest cost first: the cheapest cell among the open rows and
    columns (the first one in scan order among equals) is saturated, and
    the row or the column it exhausts is closed.  When a single row is
    left open its columns are closed one after the other, and likewise for
    a single column, so that rows + cols - 1 cells are produced; a cell
    saturated with 0 is a degenerate basic cell.  [rs] and [rd] are the unmet supply
    and demand, [ar] and [ac] the open rows and columns. *)
Fixpoint build (fuel : nat) (t : transport) (rs rd : list c_float)
    (ar ac : list nat) (acc : list bvar) : list bvar :=
  match fuel with
  | O => acc
  | S fuel' =>
      match argmin (cost_at t) (list_prod ar ac) with
      | None => acc
      | Some (i, j) =>
          let s := nth i rs fzero in
          let d := nth j rd fzero in
          let x := if fltb s d then s else d in
          let rs' := set_nth i (f32_sub s x) rs in
          let rd' := set_nth j (f32_sub d x) rd in
          let acc' := acc ++ [{| row := i; col := j; flow := x |}] in
          let close_row :=
            match ar, ac with
            | [_], _ => false
            | _, [_] => true
            | _, _ => negb (fltb d s)
            end in
          if close_row
          then build fuel' t rs' rd'
                 (filter (fun i' => negb (Nat.eqb i' i)) ar) ac acc'
          else build fuel' t rs' rd'
                 ar (filter (fun j' => negb (Nat.eqb j' j)) ac) acc'
      end
  end.

Definition initial_basis (t : transport) : list bvar :=
  build (rows t + cols t) t (supply t) (demand t)
        (seq 0 (rows t)) (seq 0 (cols t)) [].

(** *** 4.2 Transportation-Simplex Solver *)

(** Modelled from the spec: step 1 of section 4.2, the potentials, with
    [None] for one not reached yet.  A basic cell with one potential known
    fixes the other from u_i + v_j = cost[i][j]. *)
Definition potentials : Type := (list (option c_float) * list (option c_float))%type.

Definition relax (t : transport) (uv : potentials) (b : bvar) : potentials :=
  let '(u, v) := uv in
  match nth (row b) u None, nth (col b) v None with
  | Some ui, None =>
      (u, set_nth (col b) (Some (f32_sub (cost_at t (cell_of b)) ui)) v)
  | None, Some vj =>
      (set_nth (row b) (Some (f32_sub (cost_at t (cell_of b)) vj)) u, v)
  | _, _ => uv
  end.

Fixpoint propagate (fuel : nat) (t : transport) (basis : list bvar)
    (uv : potentials) : potentials :=
  match fuel with
  | O => uv
  | S fuel' => propagate fuel' t basis (fold_left (relax t) basis uv)
  end.

Definition compute_potentials (t : transport) (basis : list bvar) : potentials :=
  propagate (rows t + cols t) t basis
    (set_nth 0 (Some fzero) (repeat None (rows t)), repeat None (cols t)).

(** Modelled from the spec: step 2 of section 4.2, the reduced cost of a
    cell, cost[i][j] - u_i - v_j. *)
Definition reduced_cost (t : transport) (uv : potentials) (ij : cell)
  : option c_float :=
  match nth (fst ij) (fst uv) None, nth (snd ij) (snd uv) None with
  | Some ui, Some vj => Some (f32_sub (f32_sub (cost_at t ij) ui) vj)
  | _, _ => None
  end.

Fixpoint all_some {A : Type} (l : list (option A)) : option (list A) :=
  match l with
  | [] => Some []
  | None :: _ => None
  | Some a :: l' =>
      match all_some l' with Some r => Some (a :: r) | None => None end
  end.

Fixpoint first_some {A B : Type} (f : A -> option B) (l : list A) : option B :=
  match l with
  | [] => None
  | a :: l' => match f a with Some b => Some b | None => first_some f l' end
  end.

(** Modelled from the spec: step 3 of section 4.2, the cycle the entering
    cell (i0, j0) closes with the basis.
    [cycle_from fuel i0 avail j] looks for the way from column [j] back to
    row [i0]: down or up column [j] to a basic cell, from there along its
    row to another basic cell, and so on.  The cells come out in the order
    of the walk: the first, third, ... give flow up ("-"), the second,
    fourth, ... receive flow ("+"). *)
Fixpoint cycle_from (fuel : nat) (i0 : nat) (avail : list cell) (j : nat)
  : option (list cell) :=
  match fuel with
  | O => None
  | S fuel' =>
      let in_col := filter (fun c => Nat.eqb (snd c) j) avail in
      let rest := filter (fun c => negb (Nat.eqb (snd c) j)) avail in
      first_some (fun c1 =>
        if Nat.eqb (fst c1) i0 then Some [c1] else
        let in_row := filter (fun c => Nat.eqb (fst c) (fst c1)) rest in
        let rest' := filter (fun c => negb (Nat.eqb (fst c) (fst c1))) rest in
        first_some (fun c2 =>
          match cycle_from fuel' i0 rest' (snd c2) with
          | Some p => Some (c1 :: c2 :: p)
          | None => None
          end) in_row) in_col
  end.

Fixpoint minus_cells (p : list cell) : list cell :=
  match p with
  | c1 :: _ :: p' => c1 :: minus_cells p'
  | _ => p
  end.

Fixpoint plus_cells (p : list cell) : list cell :=
  match p with
  | _ :: c2 :: p' => c2 :: plus_cells p'
  | _ => []
  end.

(** Modelled from the spec: the flow adjustment around the cycle by
    [theta] (step 3). *)
Definition adjust (minus plus : list cell) (theta : c_float) (b : bvar) : bvar :=
  if in_cells (cell_of b) minus
  then {| row := row b; col := col b; flow := f32_sub (flow b) theta |}
  else if in_cells (cell_of b) plus
  then {| row := row b; col := col b; flow := f32_add (flow b) theta |}
  else b.

Definition flow_at (basis : list bvar) (ij : cell) : c_float :=
  match find (fun b => cell_eqb (cell_of b) ij) basis with
  | Some b => flow b
  | None => fzero
  end.

(** Modelled from the spec: the pivot of step 3 on the entering cell;
    theta is the smallest flow on a "-" cell, the leaving cell the first
    "-" cell in scan order that carries it.  [None]: no cycle or no leaving
    cell can be told (degeneracy). *)
Definition pivot (t : transport) (basis : list bvar) (entering : cell)
  : option (list bvar) :=
  match cycle_from (rows t + cols t) (fst entering) (map cell_of basis)
                   (snd entering) with
  | None => None
  | Some path =>
      let minus := minus_cells path in
      let plus := plus_cells path in
      match argmin (fun x => x)
              (map flow (filter (fun b => in_cells (cell_of b) minus) basis)) with
      | None => None
      | Some theta =>
          match find (fun ij => in_cells ij minus && feqb (flow_at basis ij) theta)
                     (scan t) with
          | None => None
          | Some leaving =>
              Some (filter (fun b => negb (cell_eqb (cell_of b) leaving))
                           (map (adjust minus plus theta) basis)
                    ++ [{| row := fst entering; col := snd entering;
                           flow := theta |}])
          end
      end
  end.

Inductive step_result : Type :=
| Optimal
| Pivoted (basis : list bvar)
| Degenerate.

(** Modelled from the spec: one iteration of section 4.2, steps 1 to 3. *)
Definition simplex_step (t : transport) (basis : list bvar) : step_result :=
  let uv := compute_potentials t basis in
  let nonbasic :=
    filter (fun ij => negb (in_cells ij (map cell_of basis))) (scan t) in
  match all_some (map (fun ij =>
                         match reduced_cost t uv ij with
                         | Some r => Some (ij, r)
                         | None => None
                         end) nonbasic) with
  | None => Degenerate
  | Some rs =>
      if forallb (fun ijr => fleb (SFopp epsilon) (snd ijr)) rs then Optimal
      else
        match argmin snd rs with
        | None => Optimal
        | Some (entering, _) =>
            match pivot t basis entering with
            | Some basis' => Pivoted basis'
            | None => Degenerate
            end
        end
  end.

(** Modelled from the spec: step 4 of section 4.2, the iterations, [fuel] of
    them at most. *)
Fixpoint simplex (fuel : nat) (t : transport) (basis : list bvar)
  : emd_error + list bvar :=
  match fuel with
  | O => inl ConvergenceError
  | S fuel' =>
      match simplex_step t basis with
      | Optimal => inr basis
      | Pivoted basis' => simplex fuel' t basis'
      | Degenerate => inl NumericalError
      end
  end.

(** *** 4.3 Result Extractor *)

(** Modelled from the spec: the extractor of section 4.3, the sum of
    flow * cost over the basic cells, those of the dump bin left out. *)
Definition extract (t : transport) (basis : list bvar) : c_float :=
  fsum (map (fun b => f32_mul (flow b) (cost_at t (cell_of b)))
            (filter (fun b => Nat.ltb (row b) (real_rows t)
                              && Nat.ltb (col b) (real_cols t)) basis)).

(** Modelled from the spec: the solver [emd] of emd.h, whose definition is
    missing.  Section 4.1 gives the rejected inputs (an empty distribution,
    a negative weight, a cost matrix whose length is not n*m), section 4.2
    the cap of 10*(n+m) iterations, and section 7 the hard stop on an
    internal numerical issue: no NaN is handed back as a distance. *)
Definition emd (signature1 signature2 : signature_t) (c : list c_float)
  : emd_result :=
  let w1 := Weights signature1 in
  let w2 := Weights signature2 in
  if (n signature1 <=? 0) || (n signature2 <=? 0) then Failure InvalidInputError
  else if negb (Z.of_nat (List.length w1) =? n signature1)
          || negb (Z.of_nat (List.length w2) =? n signature2)
  then Failure InvalidInputError
  else if existsb (fun w => fltb w fzero) (w1 ++ w2)
  then Failure InvalidInputError
  else if negb (Z.of_nat (List.length c) =? n signature1 * n signature2)
  then Failure InvalidInputError
  else
    let t := balance w1 w2 c in
    match simplex (10 * (List.length w1 + List.length w2)) t (initial_basis t) with
    | inl e => Failure e
    | inr basis =>
        let distance := extract t basis in
        if is_nan distance then Failure NumericalError else Distance distance
    end.

(** ** Vocabulary of the statements *)

Fixpoint numbers_from (seq : PyObject) (count : nat) (i : Z) : bool :=
  match count with
  | O => true
  | S count' =>
      match PySequence_GetItem seq i with
      | Some x => is_number x && numbers_from seq count' (i + 1)
      | None => false
      end
  end.

(** The items [0 .. k-1] of [seq] exist and are ints or floats. *)
Definition numbers_upto (seq : PyObject) (k : Z) : bool :=
  numbers_from seq (Z.to_nat k) 0.

(** The three arguments of the call, and the message of the element loop
    of each. *)
Inductive argument : Type := arg_weight1 | arg_weight2 | arg_cost.

Definition loop_message (a : argument) : string :=
  match a with
  | arg_weight1 => "w1 should be a sequence of numbers"
  | arg_weight2 => "w2 should be a sequence of numbers"
  | arg_cost => "cost should be a sequence of numbers"
  end.

(** The C [float] stored for item [i] of [seq]. *)
Definition item_float (seq : PyObject) (i : Z) : c_float :=
  match PySequence_GetItem seq i with
  | Some x => double_to_float (fst (PyFloat_AsDouble x))
  | None => fzero
  end.

Definition item_pending (seq : PyObject) (i : Z) : option PyExc :=
  match PySequence_GetItem seq i with
  | Some x => snd (PyFloat_AsDouble x)
  | None => None
  end.

Fixpoint floats_from (seq : PyObject) (count : nat) (i : Z) : list c_float :=
  match count with
  | O => []
  | S count' => item_float seq i :: floats_from seq count' (i + 1)
  end.

Fixpoint pending_from (seq : PyObject) (count : nat) (i : Z) : option PyExc :=
  match count with
  | O => None
  | S count' => later (item_pending seq i) (pending_from seq count' (i + 1))
  end.

(** The array the binding fills from the first [k] items of [seq]. *)
Definition floats_of (seq : PyObject) (k : Z) : list c_float :=
  floats_from seq (Z.to_nat k) 0.

Definition pending_of (seq : PyObject) (k : Z) : option PyExc :=
  pending_from seq (Z.to_nat k) 0.

(** A double is exactly representable in single precision when it is the
    promotion of some binary32 number. *)
Definition representable_in_float (x : c_double) : Prop :=
  exists f : c_float, valid_binary 24 128 f = true /\ float_to_double f = x.

(** Neither negative nor minus infinity (a zero of either sign and a NaN
    pass). *)
Definition notneg (x : spec_float) : bool :=
  match x with
  | S754_finite true _ _ | S754_infinity true => false
  | _ => true
  end.

Definition all_notneg (l : list c_float) : Prop :=
  Forall (fun x => notneg x = true) l.

(** No basic cell carries a negative flow. *)
Definition flows_notneg (basis : list bvar) : Prop :=
  Forall (fun b => notneg (flow b) = true) basis.

(** An int or a float that is [>= 0]. *)
Definition nonneg_number (o : PyObject) : bool :=
  match o with
  | PyFloat d => fleb fzero d
  | PyLong z => 0 <=? z
  | _ => false
  end.

Fixpoint nonneg_from (seq : PyObject) (count : nat) (i : Z) : bool :=
  match count with
  | O => true
  | S count' =>
      match PySequence_GetItem seq i with
      | Some x => nonneg_number x && nonneg_from seq count' (i + 1)
      | None => false
      end
  end.

(** The items [0 .. k-1] of [seq] exist and are numbers [>= 0]. *)
Definition nonneg_upto (seq : PyObject) (k : Z) : bool :=
  nonneg_from seq (Z.to_nat k) 0.

(** The double nearest to 0.1. *)
Definition one_tenth : c_double := S754_finite false 7205759403792794 (-56).

(** Python lists of ints, for the concrete inputs. *)
Definition ints (l : list Z) : PyObject := PyList (map PyLong l).

(** ** The whole entry point: argument parsing (lines 15-27)

    [compute_emd] is registered with METH_VARARGS | METH_KEYWORDS
    (line 103): it receives the tuple of the positional arguments and the
    dict of the keyword arguments, here a list of objects and a list of
    named objects. *)

Definition kwlist : list string :=
  ["weight1"%string; "weight2"%string; "cost"%string].

(** [PyDict_GetItemString(keywds, key)]. *)
Fixpoint PyDict_GetItemString (keywds : list (string * PyObject)) (key : string)
  : option PyObject :=
  match keywds with
  | [] => None
  | (k, v) :: keywds' =>
      if String.eqb k key then Some v else PyDict_GetItemString keywds' key
  end.

(** The loop of [PyArg_ParseTupleAndKeywords] over the names of [kwlist],
    for a format of required "O" units: slot [i] is positional argument [i]
    when there is one, and otherwise the keyword argument of that name,
    looked up as long as keyword arguments are left to account for;
    [nkwargs] counts those. *)
Fixpoint parse_slots (names : list string) (i : nat) (args : list PyObject)
    (keywds : list (string * PyObject)) (nkwargs : nat)
  : option (list PyObject * nat) :=
  match names with
  | [] => Some ([], nkwargs)
  | name :: names' =>
      match nth_error args i with
      | Some a =>
          match parse_slots names' (S i) args keywds nkwargs with
          | Some (l, k) => Some (a :: l, k)
          | None => None
          end
      | None =>
          match nkwargs with
          | O => None
          | S nkwargs' =>
              match PyDict_GetItemString keywds name with
              | Some a =>
                  match parse_slots names' (S i) args keywds nkwargs' with
                  | Some (l, k) => Some (a :: l, k)
                  | None => None
                  end
              | None => None
              end
          end
      end
  end.

(** [PyArg_ParseTupleAndKeywords(args, keywds, "OOO", kwlist, &weight1,
    &weight2, &cost)]: the three objects, or [None] when the call returns 0
    with TypeError set (too many arguments, a required argument missing, a
    keyword argument left over). *)
Definition PyArg_ParseTupleAndKeywords (args : list PyObject)
    (keywds : list (string * PyObject)) : option (PyObject * PyObject * PyObject) :=
  if (List.length kwlist <? List.length args + List.length keywds)%nat then None
  else
    match parse_slots kwlist 0 args keywds (List.length keywds) with
    | Some ([weight1; weight2; cost], O) => Some (weight1, weight2, cost)
    | _ => None
    end.

(** What a call of the entry point gives: [ArgumentError] when the
    arguments do not parse (line 27 returns NULL; the exception is the
    TypeError the parser has set, whose text is not modelled), or the
    outcome of the rest of the function. *)
Inductive call_outcome : Type :=
| ArgumentError
| Called (o : outcome PyObject).

(** Lines 13-100 as a whole. *)
Definition compute_emd_entry
    (emd0 : signature_t -> signature_t -> list c_float -> emd_result)
    (args : list PyObject) (keywds : list (string * PyObject)) : call_outcome :=
  match PyArg_ParseTupleAndKeywords args keywds with
  | None => ArgumentError
  | Some (weight1, weight2, cost) => Called (compute_emd emd0 weight1 weight2 cost)
  end.

(** The object a call supplies for slot [i] of [kwlist]: positional
    argument [i], or else the keyword argument of that name. *)
Definition argument_slot (args : list PyObject)
    (keywds : list (string * PyObject)) (i : nat) : option PyObject :=
  match nth_error args i with
  | Some a => Some a
  | None => PyDict_GetItemString keywds (nth i kwlist EmptyString)
  end.

(** Some keyword argument is named neither weight1, weight2 nor cost, or
    names an argument that is already given by position. *)
Definition stray_keyword (args : list PyObject)
    (keywds : list (string * PyObject)) : bool :=
  existsb (fun kv =>
             negb (existsb (String.eqb (fst kv))
                           (skipn (List.length args) kwlist))) keywds.

(** ** Further vocabulary *)

(** The object passed for an argument, the number of its items that the
    element loops read, and the array filled from it. *)
Definition arg_object (a : argument) (weight1 weight2 cost : PyObject) : PyObject :=
  match a with
  | arg_weight1 => weight1
  | arg_weight2 => weight2
  | arg_cost => cost
  end.

Definition arg_bound (a : argument) (weight1 weight2 : PyObject) : Z :=
  match a with
  | arg_weight1 => PySequence_Size weight1
  | arg_weight2 => PySequence_Size weight2
  | arg_cost => PySequence_Size weight1 * PySequence_Size weight2
  end.

Definition arg_array (a : argument)
    (r : signature_t * signature_t * list c_float) : list c_float :=
  match a with
  | arg_weight1 => Weights (fst (fst r))
  | arg_weight2 => Weights (snd (fst r))
  | arg_cost => snd r
  end.

(** ** Arguments of any type, and the stack *)

Definition INT_MIN : Z := - 2147483648.
Definition PY_SSIZE_T_MAX : Z := 2 ^ 63 - 1.

(** An argument as [compute_emd] meets it: whether its type has the sequence
    protocol, and what its length function and its item function answer
    (the slots [sq_length] and [sq_item] of the type).  A class with its own
    [__len__] and [__getitem__] runs Python code there, so the answers may
    change from one call to the next, and one object may be passed for two
    arguments; both functions therefore take the moment of the call, which
    is the number of calls of [PySequence_Size] and [PySequence_GetItem]
    that the run has made before it.  A length function that fails is one
    that gives a negative number, an item function that fails gives
    [None].  Items are ints and floats of the built-in types, or anything
    else of [PyObject]. *)
Record PyArgument : Type := {
  sq_check : bool;
  sq_length : nat -> Z;
  sq_item : nat -> Z -> option PyObject
}.

(** An object of the built-in types as an argument: it answers alike at
    every moment. *)
Definition builtin (o : PyObject) : PyArgument :=
  {| sq_check := PySequence_Check o;
     sq_length := fun _ => PySequence_Size o;
     sq_item := fun _ i => PySequence_GetItem o i |}.

(** [PySequence_Size(o)] at moment [t]: the length, a [Py_ssize_t], or [-1]
    with an exception set, for an object that is no sequence, for a length
    function that fails, and for a length beyond [PY_SSIZE_T_MAX]
    (OverflowError, as for range(2**63)). *)
Definition PySequence_Size_at (o : PyArgument) (t : nat) : Z :=
  if sq_check o then
    let v := sq_length o t in
    if (0 <=? v) && (v <=? PY_SSIZE_T_MAX) then v else -1
  else -1.

(** [PySequence_GetItem(o, i)] at moment [t]; a negative index is first
    counted from the end (the element loops have none). *)
Definition PySequence_GetItem_at (o : PyArgument) (t : nat) (i : Z)
  : option PyObject :=
  if sq_check o then
    if i <? 0 then
      let l := PySequence_Size_at o t in
      if l <? 0 then None else sq_item o t (i + l)
    else sq_item o t i
  else None.

(** The argument of [alloca(len * sizeof(double))]: the [int] is converted
    to [size_t] and multiplied by 8, both modulo 2^64. *)
Definition alloca_request (len : Z) : Z := ((len mod 2 ^ 64) * 8) mod 2 ^ 64.

(** An element loop as [read_items], the call for index [i] being made at
    moment [t]. *)
Fixpoint read_items_at (seq : PyArgument) (msg : string) (count : nat) (i : Z)
    (t : nat) : outcome (list c_float) :=
  match count with
  | O => Normal [] None
  | S count' =>
      match PySequence_GetItem_at seq t i with
      | None => Undefined NullItem
      | Some item =>
          if negb (PyFloat_Check item) && negb (PyInt_Check item)
          then Raised PyExc_TypeError msg
          else
            d <- (let '(d, pending) := PyFloat_AsDouble item in
                  Normal d pending) ;;
            rest <- read_items_at seq msg count' (i + 1) (S t) ;;
            Normal (double_to_float d :: rest) None
      end
  end.

(** The exception a failed [PySequence_Size] among [sizes] leaves set. *)
Definition size_pending (sizes : list Z) : option PyExc :=
  if existsb (fun v => v <? 0) sizes then Some PyExc_Exception else None.

(** Lines 29-95 on arguments of any type.  [stack] is the number of bytes
    that [alloca] can still take from the stack when the function is
    entered; a request beyond it has no defined behaviour.  The four calls
    of [PySequence_Size] are made at the moments 0 to 3 and the loops go on
    from moment 4, one call of [PySequence_GetItem] each turn. *)
Definition compute_emd_run (stack : Z) (weight1 weight2 cost : PyArgument)
  : outcome (signature_t * signature_t * list c_float) :=
  if negb (sq_check weight1)
  then Raised PyExc_TypeError "weight1 must be a sequence" else
  if negb (sq_check weight2)
  then Raised PyExc_TypeError "weight2 must be a sequence" else
  let size1 := PySequence_Size_at weight1 0 in
  let size2 := PySequence_Size_at weight2 1 in
  let length1 := int_of_ssize size1 in
  let length2 := int_of_ssize size2 in
  let size1' := PySequence_Size_at weight1 2 in
  if negb (size1' =? length1)
  then Raised PyExc_TypeError "feature1 and weight1 must be the same" else
  let size2' := PySequence_Size_at weight2 3 in
  if negb (size2' =? length2)
  then Raised PyExc_TypeError "feature2 and weight2 must be the same" else
  let used1 := alloca_request length1 in
  if stack <? used1 then Undefined StackExhausted else
  let used2 := used1 + alloca_request length2 in
  if stack <? used2 then Undefined StackExhausted else
  if (length1 * length2 <? INT_MIN) || (INT_MAX <? length1 * length2)
  then Undefined IntOverflow else
  if stack <? used2 + alloca_request (length1 * length2)
  then Undefined StackExhausted else
  let t1 := 4%nat in
  let t2 := (t1 + Z.to_nat length1)%nat in
  let t3 := (t2 + Z.to_nat length2)%nat in
  _ <- Normal tt (size_pending [size1; size2; size1'; size2']) ;;
  w1 <- read_items_at weight1 "w1 should be a sequence of numbers"
          (Z.to_nat length1) 0 t1 ;;
  w2 <- read_items_at weight2 "w2 should be a sequence of numbers"
          (Z.to_nat length2) 0 t2 ;;
  c <- read_items_at cost "cost should be a sequence of numbers"
          (Z.to_nat (length1 * length2)) 0 t3 ;;
  Normal ({| n := length1; Weights := w1 |},
          {| n := length2; Weights := w2 |}, c) None.

(** Lines 29-99 on arguments of any type. *)
Definition compute_emd_on (stack : Z)
    (emd0 : signature_t -> signature_t -> list c_float -> emd_result)
    (weight1 weight2 cost : PyArgument) : outcome PyObject :=
  a <- compute_emd_run stack weight1 weight2 cost ;;
  call_emd emd0 a.

(** *** Vocabulary of the statements about the run *)

(** [length1] and [length2] of lines 39-40. *)
Definition length1_of (weight1 : PyArgument) : Z :=
  int_of_ssize (PySequence_Size_at weight1 0).

Definition length2_of (weight2 : PyArgument) : Z :=
  int_of_ssize (PySequence_Size_at weight2 1).

(** Lines 29-54 are passed with every step defined: both weights are
    sequences, the second call of [PySequence_Size] on each gives what
    [length1] and [length2] hold of the first, these are not negative, their
    product fits in an [int], and the stack holds the three arrays. *)
Definition arrays_allocated (stack : Z) (weight1 weight2 : PyArgument) : bool :=
  sq_check weight1 && sq_check weight2
  && (PySequence_Size_at weight1 2 =? length1_of weight1)
  && (PySequence_Size_at weight2 3 =? length2_of weight2)
  && (0 <=? length1_of weight1) && (0 <=? length2_of weight2)
  && (length1_of weight1 * length2_of weight2 <=? INT_MAX)
  && (8 * length1_of weight1 + 8 * length2_of weight2
      + 8 * (length1_of weight1 * length2_of weight2) <=? stack).

(** The loop of an argument: the object it reads, its bound, and the moment
    of its first call of [PySequence_GetItem]. *)
Definition loop_object (a : argument) (weight1 weight2 cost : PyArgument)
  : PyArgument :=
  match a with
  | arg_weight1 => weight1
  | arg_weight2 => weight2
  | arg_cost => cost
  end.

Definition loop_bound (a : argument) (weight1 weight2 : PyArgument) : Z :=
  match a with
  | arg_weight1 => length1_of weight1
  | arg_weight2 => length2_of weight2
  | arg_cost => length1_of weight1 * length2_of weight2
  end.

Definition loop_start (a : argument) (weight1 weight2 : PyArgument) : nat :=
  match a with
  | arg_weight1 => 4
  | arg_weight2 => 4 + Z.to_nat (length1_of weight1)
  | arg_cost => 4 + Z.to_nat (length1_of weight1) + Z.to_nat (length2_of weight2)
  end%nat.

(** What the loop of argument [a] gets when it asks for item [k]. *)
Definition loop_item (a : argument) (weight1 weight2 cost : PyArgument) (k : Z)
  : option PyObject :=
  PySequence_GetItem_at (loop_object a weight1 weight2 cost)
    (loop_start a weight1 weight2 + Z.to_nat k) k.


(** The [count] items that a loop asks for from index [i] and moment [t] on
    are there and pass the test [ok]. *)
Fixpoint items_at (ok : PyObject -> bool) (seq : PyArgument) (count : nat)
    (i : Z) (t : nat) : bool :=
  match count with
  | O => true
  | S count' =>
      match PySequence_GetItem_at seq t i with
      | Some x => ok x && items_at ok seq count' (i + 1) (S t)
      | None => false
      end
  end.

(** The first [k] items that the loop of argument [a] asks for pass the
    test [ok]. *)
Definition loop_reads (ok : PyObject -> bool) (a : argument)
    (weight1 weight2 cost : PyArgument) (k : Z) : bool :=
  items_at ok (loop_object a weight1 weight2 cost) (Z.to_nat k) 0
    (loop_start a weight1 weight2).

(** All that the loops over the weights ask for passes the test [ok]. *)
Definition weights_read (ok : PyObject -> bool) (weight1 weight2 : PyArgument)
  : bool :=
  items_at ok weight1 (Z.to_nat (length1_of weight1)) 0 4
  && items_at ok weight2 (Z.to_nat (length2_of weight2)) 0
       (4 + Z.to_nat (length1_of weight1)).

(** All that the three loops ask for passes the test [ok]. *)
Definition all_read (ok : PyObject -> bool) (weight1 weight2 cost : PyArgument)
  : bool :=
  weights_read ok weight1 weight2
  && loop_reads ok arg_cost weight1 weight2 cost
       (length1_of weight1 * length2_of weight2).

(** The conditions under which the code before line 97 runs to its end. *)
Definition run_accepted (stack : Z) (weight1 weight2 cost : PyArgument) : bool :=
  arrays_allocated stack weight1 weight2
  && all_read is_number weight1 weight2 cost.

(** The code before line 97 runs to its end, nothing raised and every step
    defined. *)
Definition runs_to_solver (stack : Z) (weight1 weight2 cost : PyArgument)
  : bool :=
  match compute_emd_run stack weight1 weight2 cost with
  | Normal _ _ => true
  | _ => false
  end.

Definition not_a_number (x : option PyObject) : bool :=
  match x with Some y => negb (is_number y) | None => false end.

Definition missing (x : option PyObject) : bool :=
  match x with Some _ => false | None => true end.

(** Item [k] of argument [a] is the first among all the loops ask for that
    is [bad]: the loops before that of [a] get numbers only, and so does the
    loop of [a] up to [k]. *)
Definition first_bad (bad : option PyObject -> bool)
    (weight1 weight2 cost : PyArgument) (a : argument) (k : Z) : bool :=
  (0 <=? k) && (k <? loop_bound a weight1 weight2)
  && match a with
     | arg_weight1 => true
     | arg_weight2 =>
         loop_reads is_number arg_weight1 weight1 weight2 cost (length1_of weight1)
     | arg_cost =>
         loop_reads is_number arg_weight1 weight1 weight2 cost (length1_of weight1)
         && loop_reads is_number arg_weight2 weight1 weight2 cost
              (length2_of weight2)
     end
  && loop_reads is_number a weight1 weight2 cost k
  && bad (loop_item a weight1 weight2 cost k).

(** The arrays filled by a loop, and the exception its conversions leave
    set. *)
Definition item_float_at (seq : PyArgument) (t : nat) (i : Z) : c_float :=
  match PySequence_GetItem_at seq t i with
  | Some x => double_to_float (fst (PyFloat_AsDouble x))
  | None => fzero
  end.

Definition item_pending_at (seq : PyArgument) (t : nat) (i : Z) : option PyExc :=
  match PySequence_GetItem_at seq t i with
  | Some x => snd (PyFloat_AsDouble x)
  | None => None
  end.

Fixpoint floats_at (seq : PyArgument) (count : nat) (i : Z) (t : nat)
  : list c_float :=
  match count with
  | O => []
  | S count' => item_float_at seq t i :: floats_at seq count' (i + 1) (S t)
  end.

Fixpoint pending_at (seq : PyArgument) (count : nat) (i : Z) (t : nat)
  : option PyExc :=
  match count with
  | O => None
  | S count' =>
      later (item_pending_at seq t i) (pending_at seq count' (i + 1) (S t))
  end.

Definition loop_array (a : argument) (weight1 weight2 cost : PyArgument)
  : list c_float :=
  floats_at (loop_object a weight1 weight2 cost)
    (Z.to_nat (loop_bound a weight1 weight2)) 0 (loop_start a weight1 weight2).

Definition loop_pending (a : argument) (weight1 weight2 cost : PyArgument)
  : option PyExc :=
  pending_at (loop_object a weight1 weight2 cost)
    (Z.to_nat (loop_bound a weight1 weight2)) 0 (loop_start a weight1 weight2).

(** What the solver is called on when the three loops have run. *)
Definition run_arrays (weight1 weight2 cost : PyArgument)
  : signature_t * signature_t * list c_float :=
  ({| n := length1_of weight1;
      Weights := loop_array arg_weight1 weight1 weight2 cost |},
   {| n := length2_of weight2;
      Weights := loop_array arg_weight2 weight1 weight2 cost |},
   loop_array arg_cost weight1 weight2 cost).

Definition run_pending (weight1 weight2 cost : PyArgument) : option PyExc :=
  later (loop_pending arg_weight1 weight1 weight2 cost)
    (later (loop_pending arg_weight2 weight1 weight2 cost)
       (loop_pending arg_cost weight1 weight2 cost)).

(** Two values of cost answer alike where the loop over cost asks. *)
Definition same_cost_read (weight1 weight2 cost cost' : PyArgument) : Prop :=
  forall k, 0 <= k < length1_of weight1 * length2_of weight2 ->
    loop_item arg_cost weight1 weight2 cost' k
    = loop_item arg_cost weight1 weight2 cost k.

(** The sequence of [k] times the item [x], as the list [[x] * k]. *)
Definition repeated (x : PyObject) (k : Z) : PyArgument :=
  {| sq_check := true;
     sq_length := fun _ => k;
     sq_item := fun _ i => if (0 <=? i) && (i <? k) then Some x else None |}.

(** A sequence that says 1 when first asked for its length, and 2 from then
    on. *)
Definition growing : PyArgument :=
  {| sq_check := true;
     sq_length := fun t => match t with O => 1 | _ => 2 end;
     sq_item := fun _ _ => Some (PyLong 1) |}.

(** A sequence of length 2 whose item function fails from index 1 on. *)
Definition failing : PyArgument :=
  {| sq_check := true;
     sq_length := fun _ => 2;
     sq_item := fun _ i => if i =? 0 then Some (PyLong 1) else None |}.

(** * Rounding in [SpecFloat]

    What the development needs about [binary_round]: its result is a valid
    number of the format, and carries the sign it was asked for. *)

Lemma digits2_pos_size p : digits2_pos p = Pos.size p.
Proof. induction p; simpl; congruence. Qed.

Lemma Zdigits2_log2 m : 0 < m -> Zdigits2 m = Z.log2 m + 1.
Proof.
  destruct m as [|p|p]; try lia. intros _. simpl Zdigits2.
  rewrite digits2_pos_size.
  destruct p; simpl; lia.
Qed.

Lemma Zdigits2_nonneg m : 0 <= Zdigits2 m.
Proof. destruct m; simpl; lia. Qed.

Lemma Zdigits2_div m k : 0 < m -> 0 <= k -> 0 < m / 2 ^ k ->
  Zdigits2 (m / 2 ^ k) = Zdigits2 m - k.
Proof.
  intros Hm Hk Hq. rewrite !Zdigits2_log2 by assumption.
  rewrite <- Z.shiftr_div_pow2 in * by assumption.
  rewrite Z.log2_shiftr by assumption.
  destruct (Z.le_gt_cases k (Z.log2 m)); [lia|].
  rewrite Z.shiftr_eq_0 in Hq; lia.
Qed.

Lemma Zdigits2_div_zero m k : 0 < m -> 0 <= k -> m / 2 ^ k = 0 -> Zdigits2 m <= k.
Proof.
  intros Hm Hk Hq. rewrite Zdigits2_log2 by assumption.
  rewrite <- Z.shiftr_div_pow2 in Hq by assumption.
  apply Z.shiftr_eq_0_iff in Hq. lia.
Qed.

Lemma Zdigits2_mul_pow2 m k : 0 < m -> 0 <= k ->
  Zdigits2 (m * 2 ^ k) = Zdigits2 m + k.
Proof.
  intros Hm Hk.
  assert (0 < m * 2 ^ k)
    by (apply Z.mul_pos_pos; [assumption|]; apply Z.pow_pos_nonneg; lia).
  rewrite !Zdigits2_log2 by assumption.
  rewrite Z.log2_mul_pow2 by assumption. lia.
Qed.

Lemma Zdigits2_succ m : 0 < m ->
  Zdigits2 (m + 1) = Zdigits2 m \/
  (Zdigits2 (m + 1) = Zdigits2 m + 1 /\ m + 1 = 2 ^ Zdigits2 m).
Proof.
  intros Hm. rewrite !Zdigits2_log2 by lia.
  destruct (Z.log2_succ_or m) as [E|E].
  - right. destruct (Z.log2_eq_succ_is_pow2 _ E) as [b Hb].
    unfold Z.succ in *.
    assert (0 <= b).
    { destruct (Z.le_gt_cases 0 b); [assumption|].
      rewrite Z.pow_neg_r in Hb; lia. }
    assert (L : Z.log2 (m + 1) = b)
      by (rewrite Hb; apply Z.log2_pow2; assumption).
    split; [lia|]. rewrite Hb. f_equal. lia.
  - left. unfold Z.succ in E. lia.
Qed.

Lemma iter_pos_shr_m k : forall mrs, 0 <= shr_m mrs ->
  shr_m (iter_pos shr_1 k mrs) = shr_m mrs / 2 ^ Zpos k.
Proof.
  assert (S1 : forall mrs, 0 <= shr_m mrs -> shr_m (shr_1 mrs) = shr_m mrs / 2 ^ 1).
  { intros [m r s] H. change (2 ^ 1) with 2.
    destruct m as [|p|p]; [reflexivity| |simpl in H; lia].
    destruct p; cbn [shr_1 shr_m].
    - rewrite Pos2Z.inj_xI. apply (Z.div_unique _ _ _ 1); lia.
    - rewrite Pos2Z.inj_xO. apply (Z.div_unique _ _ _ 0); lia.
    - reflexivity. }
  assert (P : forall k, 0 < 2 ^ Zpos k) by (intros; apply Z.pow_pos_nonneg; lia).
  induction k as [k IH|k IH|]; intros mrs H; simpl iter_pos.
  - assert (H1 : 0 <= shr_m (shr_1 mrs))
      by (rewrite S1 by assumption; apply Z.div_pos; lia).
    assert (H2 : 0 <= shr_m (iter_pos shr_1 k (shr_1 mrs)))
      by (rewrite IH by assumption; apply Z.div_pos; [assumption|apply P]).
    rewrite IH by assumption. rewrite IH by assumption.
    rewrite S1 by assumption.
    rewrite !Z.div_div by (pose proof (P k); pose proof (P 1%positive); lia).
    rewrite <- !Z.pow_add_r by lia. f_equal. f_equal. lia.
  - assert (H2 : 0 <= shr_m (iter_pos shr_1 k mrs))
      by (rewrite IH by assumption; apply Z.div_pos; [assumption|apply P]).
    rewrite IH by assumption. rewrite IH by assumption.
    rewrite !Z.div_div by (pose proof (P k); lia).
    rewrite <- !Z.pow_add_r by lia. f_equal. f_equal. lia.
  - apply S1, H.
Qed.

Lemma shr_spec m e l k : 0 <= m ->
  shr_m (fst (shr (shr_record_of_loc m l) e k)) = m / 2 ^ Z.max 0 k /\
  snd (shr (shr_record_of_loc m l) e k) = e + Z.max 0 k.
Proof.
  intros Hm.
  assert (E : shr_m (shr_record_of_loc m l) = m) by (destruct l as [|[]]; reflexivity).
  destruct k as [|k|k]; simpl shr; cbn [fst snd].
  - rewrite E. simpl. rewrite Z.div_1_r. lia.
  - rewrite iter_pos_shr_m by lia. rewrite E. 
    replace (Z.max 0 (Zpos k)) with (Zpos k) by lia. split; reflexivity.
  - rewrite E. replace (Z.max 0 (Zneg k)) with 0 by lia. simpl. rewrite Z.div_1_r. lia.
Qed.

Lemma round_nearest_even_cases m l :
  round_nearest_even m l = m \/ round_nearest_even m l = m + 1.
Proof. destruct l as [|[]]; simpl; auto. destruct (Z.even m); auto. Qed.

Section Rounding.
Variables prec emax : Z.
Hypothesis Hprec : 0 < prec.

(** Second stage. *)
Lemma shr_fexp_canonical m1 e1 :
  0 < m1 ->
  (fexp prec emax (Zdigits2 m1 + e1) = e1 \/
   (m1 = 2 ^ prec /\ fexp prec emax (prec + e1) = e1)) ->
  forall m2 e2,
  shr_m (fst (shr_fexp prec emax m1 e1 loc_Exact)) = m2 ->
  snd (shr_fexp prec emax m1 e1 loc_Exact) = e2 ->
  0 < m2 -> fexp prec emax (Zdigits2 m2 + e2) = e2.
Proof.
  intros Hm H m2 e2 Hm2 He2 Hpos. unfold shr_fexp in *.
  destruct (shr_spec m1 e1 loc_Exact (fexp prec emax (Zdigits2 m1 + e1) - e1)) as [A B]; [lia|].
  rewrite A in Hm2. rewrite B in He2. clear A B.
  destruct H as [H | [Hp H]].
  - rewrite H in *. replace (Z.max 0 (e1 - e1)) with 0 in * by lia.
    simpl in Hm2. rewrite Z.div_1_r in Hm2. subst. rewrite Z.add_0_r. exact H.
  - assert (D1 : Zdigits2 m1 = prec + 1).
    { subst m1. rewrite Zdigits2_log2 by assumption. rewrite Z.log2_pow2; lia. }
    rewrite D1 in *.
    unfold fexp in *.
    assert (K : Z.max (prec + 1 + e1 - prec) (emin prec emax) - e1 = 1) by lia.
    rewrite K in *. change (Z.max 0 1) with 1 in *.
    assert (M2 : m2 = 2 ^ (prec - 1)).
    { rewrite <- Hm2, Hp. 
      replace prec with (prec - 1 + 1) at 1 by lia.
      rewrite Z.pow_add_r by lia. apply Z.div_mul. discriminate. }
    assert (D2 : Zdigits2 m2 = prec).
    { rewrite M2. rewrite Zdigits2_log2 by (apply Z.pow_pos_nonneg; lia).
      rewrite Z.log2_pow2; lia. }
    rewrite D2. lia.
Qed.

(** First stage and rounding. *)
Lemma binary_round_aux_valid s mz ez l :
  0 < mz -> ez <= fexp prec emax (Zdigits2 mz + ez) ->
  valid_binary prec emax (binary_round_aux prec emax s mz ez l) = true.
Proof.
  intros Hm H0. unfold binary_round_aux.
  destruct (shr_fexp prec emax mz ez l) as [mrs' e'] eqn:E1.
  assert (A := shr_spec mz ez l (fexp prec emax (Zdigits2 mz + ez) - ez) ltac:(lia)).
  unfold shr_fexp in E1. rewrite E1 in A. cbn [fst snd] in A. destruct A as [A B].
  set (t := fexp prec emax (Zdigits2 mz + ez)) in *.
  replace (Z.max 0 (t - ez)) with (t - ez) in * by lia.
  replace (ez + (t - ez)) with t in B by lia. subst e'.
  set (m1 := round_nearest_even (shr_m mrs') (loc_of_shr_record mrs')).
  destruct (shr_fexp prec emax m1 t loc_Exact) as [mrs'' e''] eqn:E2.
  destruct (shr_m mrs'') as [|m|m] eqn:E3; try reflexivity.
  destruct (e'' <=? emax - prec) eqn:E4; [|reflexivity].
  simpl. unfold bounded. rewrite E4, andb_true_r.
  unfold canonical_mantissa. apply Z.eqb_eq.
  change (Zpos (digits2_pos m)) with (Zdigits2 (Zpos m)).
  assert (Hm' : 0 <= shr_m mrs').
  { rewrite A. apply Z.div_pos; [lia|]. apply Z.pow_pos_nonneg; lia. }
  assert (Hm1 : 0 < m1).
  { destruct (Z.eq_dec m1 0) as [Z|]; [|pose proof (round_nearest_even_cases (shr_m mrs') (loc_of_shr_record mrs')); fold m1 in H; lia].
    exfalso. rewrite Z in E2. unfold shr_fexp in E2.
    pose proof (shr_spec 0 t loc_Exact (fexp prec emax (Zdigits2 0 + t) - t) ltac:(lia)) as [C _].
    rewrite E2 in C. cbn [fst] in C. rewrite Z.div_0_l in C; [lia|].
    apply Z.pow_nonzero; lia. }
  assert (HD : fexp prec emax (Zdigits2 m1 + t) = t \/
               (m1 = 2 ^ prec /\ fexp prec emax (prec + t) = t));
    [|apply (shr_fexp_canonical m1 t Hm1 HD (Zpos m) e'');
      [rewrite E2; exact E3|rewrite E2; reflexivity|lia]].
  destruct (Z.eq_dec (shr_m mrs') 0) as [Z|NZ].
  - (* everything was shifted out *)
    assert (m1 = 1) by (pose proof (round_nearest_even_cases (shr_m mrs') (loc_of_shr_record mrs')); fold m1 in H; lia).
    rewrite Z in A. symmetry in A. apply Zdigits2_div_zero in A; try lia.
    left. subst m1. rewrite H. simpl Zdigits2. unfold t, fexp in *. lia.
  - assert (D : Zdigits2 (shr_m mrs') = Zdigits2 mz - (t - ez)).
    { rewrite A. apply Zdigits2_div; lia. }
    destruct (round_nearest_even_cases (shr_m mrs') (loc_of_shr_record mrs')) as [R|R];
      fold m1 in R.
    + left. rewrite R, D. replace (Zdigits2 mz - (t - ez) + t) with (Zdigits2 mz + ez) by lia.
      reflexivity.
    + destruct (Zdigits2_succ (shr_m mrs')) as [S|[S P]]; [lia| |].
      * left. rewrite R, S, D. replace (Zdigits2 mz - (t - ez) + t) with (Zdigits2 mz + ez) by lia.
        reflexivity.
      * rewrite <- R in S, P. rewrite D in S, P.
        destruct (Z.eq_dec (Zdigits2 mz - (t - ez)) prec) as [Q|Q].
        -- right. rewrite Q in P. split; [assumption|].
           unfold t, fexp in *. lia.
        -- left. rewrite S. unfold t, fexp in *. 
           pose proof (Zdigits2_nonneg (shr_m mrs')). lia.
Qed.

Lemma shl_align_spec m e e' :
  Zpos (fst (shl_align m e e')) = Zpos m * 2 ^ (e - Z.min e e') /\
  snd (shl_align m e e') = Z.min e e'.
Proof.
  unfold shl_align. destruct (e' - e) as [|d|d] eqn:E; cbn [fst snd].
  - replace (Z.min e e') with e by lia. rewrite Z.sub_diag. simpl. lia.
  - replace (Z.min e e') with e by lia. rewrite Z.sub_diag. simpl. lia.
  - replace (Z.min e e') with e' by lia. split; [|reflexivity].
    replace (e - e') with (Zpos d) by lia.
    clear E. revert m. induction d using Pos.peano_ind; intros m.
    + simpl. lia.
    + rewrite Pos.iter_succ. rewrite Pos2Z.inj_xO, IHd, Pos2Z.inj_succ.
      rewrite Z.pow_succ_r by lia. lia.
Qed.

Theorem binary_round_valid s m e :
  valid_binary prec emax (binary_round prec emax s m e) = true.
Proof.
  unfold binary_round.
  destruct (shl_align m e (fexp prec emax (Zpos (digits2_pos m) + e))) as [mz ez] eqn:E.
  pose proof (shl_align_spec m e (fexp prec emax (Zpos (digits2_pos m) + e))) as [A B].
  rewrite E in A, B. cbn [fst snd] in A, B.
  apply binary_round_aux_valid; [lia|].
  rewrite A. rewrite Zdigits2_mul_pow2 by lia.
  change (Zdigits2 (Zpos m)) with (Zpos (digits2_pos m)).
  rewrite B. 
  replace (Z.pos (digits2_pos m) + (e - Z.min e (fexp prec emax (Z.pos (digits2_pos m) + e))) +
 Z.min e (fexp prec emax (Z.pos (digits2_pos m) + e))) with (Z.pos (digits2_pos m) + e) by lia.
  lia.
Qed.

(** The sign of a rounded number is the sign asked for; no NaN. *)
Lemma binary_round_aux_sign s mx ex lx :
  0 <= mx ->
  match binary_round_aux prec emax s mx ex lx with
  | S754_zero s' | S754_infinity s' | S754_finite s' _ _ => s' = s
  | S754_nan => False
  end.
Proof.
  intros Hm. unfold binary_round_aux.
  destruct (shr_fexp prec emax mx ex lx) as [mrs' e'] eqn:E1.
  pose proof (shr_spec mx ex lx (fexp prec emax (Zdigits2 mx + ex) - ex) Hm) as [A _].
  unfold shr_fexp in E1. rewrite E1 in A. cbn [fst] in A.
  set (m1 := round_nearest_even (shr_m mrs') (loc_of_shr_record mrs')).
  assert (0 <= m1).
  { assert (0 <= shr_m mrs') by (rewrite A; apply Z.div_pos; [lia|apply Z.pow_pos_nonneg; lia]).
    pose proof (round_nearest_even_cases (shr_m mrs') (loc_of_shr_record mrs')). fold m1 in H0. lia. }
  destruct (shr_fexp prec emax m1 e' loc_Exact) as [mrs'' e''] eqn:E2.
  pose proof (shr_spec m1 e' loc_Exact (fexp prec emax (Zdigits2 m1 + e') - e') H) as [C _].
  unfold shr_fexp in E2. rewrite E2 in C. cbn [fst] in C.
  assert (0 <= shr_m mrs'') by (rewrite C; apply Z.div_pos; [lia|apply Z.pow_pos_nonneg; lia]).
  destruct (shr_m mrs''); try lia; [reflexivity|].
  destruct (e'' <=? emax - prec); reflexivity.
Qed.
End Rounding.

(** * Properties of the binding *)

Lemma int_of_ssize_small v : 0 <= v <= INT_MAX -> int_of_ssize v = v.
Proof.
  unfold int_of_ssize, INT_MAX. intros H.
  rewrite Z.mod_small; lia.
Qed.

Lemma PySequence_Size_nonneg o : PySequence_Check o = true -> 0 <= PySequence_Size o.
Proof. destruct o; simpl; intros; try discriminate; lia. Qed.

Lemma string_get_none s : forall k, (String.length s <= k)%nat ->
  String.get k s = None.
Proof.
  induction s as [|c s IH]; simpl; intros k Hk; [reflexivity|].
  destruct k; [lia|]. apply IH. lia.
Qed.

(** The element loop on numbers: it fills the array and raises nothing. *)
Lemma read_items_numbers seq msg : forall count i,
  (forall j, i <= j < i + Z.of_nat count ->
     exists x, PySequence_GetItem seq j = Some x /\ is_number x = true) ->
  read_items seq msg count i
  = Normal (floats_from seq count i) (pending_from seq count i).
Proof.
  induction count as [|count IH]; intros i H; [reflexivity|].
  cbn [read_items floats_from pending_from].
  destruct (H i) as [x [Hx Hn]]; [lia|].
  unfold item_float, item_pending. rewrite Hx.
  unfold is_number in Hn.
  replace (negb (PyFloat_Check x) && negb (PyInt_Check x)) with false
    by (destruct (PyFloat_Check x), (PyInt_Check x); simpl in *; congruence).
  rewrite IH by (intros j Hj; apply H; lia).
  destruct (PyFloat_AsDouble x) as [d p]. simpl.
  destruct (pending_from seq count (i + 1)); reflexivity.
Qed.

(** The element loop meets a missing item, all items before it being
    numbers: the NULL is handed to [PyFloat_Check]. *)
Lemma read_items_null seq msg : forall count i k,
  i <= k < i + Z.of_nat count ->
  (forall j, i <= j < k ->
     exists x, PySequence_GetItem seq j = Some x /\ is_number x = true) ->
  PySequence_GetItem seq k = None ->
  read_items seq msg count i = Undefined NullItem.
Proof.
  induction count as [|count IH]; intros i k Hk Hbefore Hx; [lia|].
  cbn [read_items].
  destruct (Z.eq_dec i k) as [->|Hne].
  - rewrite Hx. reflexivity.
  - destruct (Hbefore i) as [y [Hy Hn]]; [lia|]. rewrite Hy.
    unfold is_number in Hn.
    replace (negb (PyFloat_Check y) && negb (PyInt_Check y)) with false
      by (destruct (PyFloat_Check y), (PyInt_Check y); simpl in *; congruence).
    rewrite (IH (i + 1) k); try assumption; try lia.
    + destruct (PyFloat_AsDouble y); reflexivity.
    + intros j Hj. apply Hbefore. lia.
Qed.

(** With two sequences whose sizes and their product fit in an [int], the
    code before the solver is the three element loops. *)
Lemma compute_emd_args_loops weight1 weight2 cost :
  PySequence_Check weight1 = true -> PySequence_Check weight2 = true ->
  PySequence_Size weight1 <= INT_MAX -> PySequence_Size weight2 <= INT_MAX ->
  PySequence_Size weight1 * PySequence_Size weight2 <= INT_MAX ->
  compute_emd_args weight1 weight2 cost =
    (w1 <- read_items weight1 "w1 should be a sequence of numbers"
             (Z.to_nat (PySequence_Size weight1)) 0 ;;
     w2 <- read_items weight2 "w2 should be a sequence of numbers"
             (Z.to_nat (PySequence_Size weight2)) 0 ;;
     c <- read_items cost "cost should be a sequence of numbers"
            (Z.to_nat (PySequence_Size weight1 * PySequence_Size weight2)) 0 ;;
     Normal ({| n := PySequence_Size weight1; Weights := w1 |},
             {| n := PySequence_Size weight2; Weights := w2 |}, c) None).
Proof.
  intros S1 S2 B1 B2 B12. unfold compute_emd_args.
  rewrite S1, S2. cbn [negb].
  pose proof (PySequence_Size_nonneg _ S1).
  pose proof (PySequence_Size_nonneg _ S2).
  rewrite !int_of_ssize_small by lia.
  rewrite !Z.eqb_refl. cbn [negb].
  destruct (Z.ltb_spec INT_MAX (PySequence_Size weight1 * PySequence_Size weight2));
    [lia|reflexivity].
Qed.

Lemma numbers_from_spec seq : forall count i,
  numbers_from seq count i = true ->
  forall j, i <= j < i + Z.of_nat count ->
    exists x, PySequence_GetItem seq j = Some x /\ is_number x = true.
Proof.
  induction count as [|count IH]; intros i H j Hj; [lia|].
  cbn [numbers_from] in H.
  destruct (PySequence_GetItem seq i) as [y|] eqn:Ey; [|discriminate].
  apply andb_true_iff in H. destruct H as [Hy Hrest].
  destruct (Z.eq_dec j i) as [->|Hne]; [eauto|].
  apply (IH (i + 1)); [assumption|lia].
Qed.

(** The numbers of a sequence, up to [k]. *)
Lemma numbers_upto_from seq k :
  numbers_upto seq k = true ->
  forall j, 0 <= j < 0 + Z.of_nat (Z.to_nat k) ->
    exists x, PySequence_GetItem seq j = Some x /\ is_number x = true.
Proof. intros H j Hj. eapply numbers_from_spec; eassumption. Qed.

Lemma numbers_upto_below seq k :
  numbers_upto seq k = true ->
  forall j, 0 <= j < k ->
    exists x, PySequence_GetItem seq j = Some x /\ is_number x = true.
Proof. intros H j Hj. apply (numbers_upto_from seq k H). lia. Qed.

(** * The run on arguments of any type *)

Lemma later_None_l q : later None q = q.
Proof. destruct q; reflexivity. Qed.

Lemma bind_unit_None {A : Type} (k : unit -> outcome A) :
  bind (Normal tt None) k = k tt.
Proof.
  cbn [bind]. destruct (k tt); try reflexivity.
  rewrite later_None_l. reflexivity.
Qed.

Lemma bind_Normal_Raised {A B : Type} (a : A) p (k : A -> outcome B) exc msg :
  bind (Normal a p) k = Raised exc msg -> k a = Raised exc msg.
Proof. cbn [bind]. destruct (k a); intros H; try discriminate; exact H. Qed.


Lemma PySequence_Size_at_range o t :
  -1 <= PySequence_Size_at o t <= PY_SSIZE_T_MAX.
Proof.
  unfold PySequence_Size_at, PY_SSIZE_T_MAX.
  destruct (sq_check o); [|lia]. cbv zeta.
  destruct (Z.leb_spec 0 (sq_length o t)), (Z.leb_spec (sq_length o t) (2 ^ 63 - 1));
    cbn [andb]; lia.
Qed.

Lemma int_of_ssize_range v : - 2 ^ 31 <= int_of_ssize v < 2 ^ 31.
Proof.
  unfold int_of_ssize.
  pose proof (Z.mod_pos_bound (v + 2 ^ 31) (2 ^ 32) ltac:(lia)). lia.
Qed.

Lemma int_of_ssize_id v : - 2 ^ 31 <= v <= INT_MAX -> int_of_ssize v = v.
Proof.
  unfold int_of_ssize, INT_MAX. intros H.
  rewrite Z.mod_small; lia.
Qed.

Lemma alloca_request_fits l : 0 <= l <= INT_MAX -> alloca_request l = 8 * l.
Proof.
  unfold alloca_request, INT_MAX. intros H.
  rewrite (Z.mod_small l) by lia. rewrite Z.mod_small; lia.
Qed.

(** A negative [int] becomes a request of almost 2^64 bytes. *)
Lemma alloca_request_negative l : - 2 ^ 31 <= l < 0 -> 2 ^ 63 <= alloca_request l.
Proof.
  unfold alloca_request. intros H.
  assert (E : l mod 2 ^ 64 = l + 2 ^ 64)
    by (symmetry; apply (Z.mod_unique _ _ (-1)); lia).
  rewrite E.
  assert (E' : ((l + 2 ^ 64) * 8) mod 2 ^ 64 = 8 * l + 2 ^ 64)
    by (symmetry; apply (Z.mod_unique _ _ 7); lia).
  rewrite E'. lia.
Qed.

Lemma alloca_request_nonneg l : 0 <= alloca_request l.
Proof.
  unfold alloca_request.
  pose proof (Z.mod_pos_bound ((l mod 2 ^ 64) * 8) (2 ^ 64) ltac:(lia)). lia.
Qed.

Lemma number_passes x :
  is_number x = true -> negb (PyFloat_Check x) && negb (PyInt_Check x) = false.
Proof.
  unfold is_number. destruct (PyFloat_Check x), (PyInt_Check x); simpl; congruence.
Qed.

Lemma non_number_stops x :
  is_number x = false -> negb (PyFloat_Check x) && negb (PyInt_Check x) = true.
Proof.
  unfold is_number. destruct (PyFloat_Check x), (PyInt_Check x); simpl; congruence.
Qed.




(** The element loop on numbers: it fills the array and raises nothing. *)
Lemma read_items_at_numbers seq msg : forall count i t,
  items_at is_number seq count i t = true ->
  read_items_at seq msg count i t
  = Normal (floats_at seq count i t) (pending_at seq count i t).
Proof.
  induction count as [|count IH]; intros i t H; [reflexivity|].
  cbn [read_items_at floats_at pending_at items_at] in *.
  unfold item_float_at, item_pending_at.
  destruct (PySequence_GetItem_at seq t i) as [x|]; [|discriminate].
  apply andb_true_iff in H. destruct H as [Hx Hrest].
  rewrite (number_passes _ Hx), (IH _ _ Hrest).
  destruct (PyFloat_AsDouble x) as [d p]. simpl.
  destruct (pending_at seq count (i + 1) (S t)); reflexivity.
Qed.


(** The element loop meets a missing item or one that is no number, after
    numbers only. *)
Lemma read_items_at_stops seq msg : forall count i t k,
  (k < count)%nat -> items_at is_number seq k i t = true ->
  read_items_at seq msg count i t
  = match PySequence_GetItem_at seq (t + k) (i + Z.of_nat k) with
    | None => Undefined NullItem
    | Some x =>
        if is_number x then read_items_at seq msg count i t
        else Raised PyExc_TypeError msg
    end.
Proof.
  induction count as [|count IH]; intros i t k Hk H; [lia|].
  destruct k as [|k].
  - rewrite Nat.add_0_r, Z.add_0_r. cbn [read_items_at].
    destruct (PySequence_GetItem_at seq t i) as [x|]; [|reflexivity].
    destruct (is_number x) eqn:Hx.
    + rewrite (number_passes _ Hx). reflexivity.
    + rewrite (non_number_stops _ Hx). reflexivity.
  - cbn [items_at] in H.
    destruct (PySequence_GetItem_at seq t i) as [y|] eqn:Ey; [|discriminate].
    apply andb_true_iff in H. destruct H as [Hy Hrest].
    specialize (IH (i + 1) (S t) k ltac:(lia) Hrest).
    replace (t + S k)%nat with (S t + k)%nat by lia.
    replace (i + Z.of_nat (S k)) with (i + 1 + Z.of_nat k) by lia.
    destruct (PySequence_GetItem_at seq (S t + k) (i + 1 + Z.of_nat k)) as [x|].
    + destruct (is_number x); [reflexivity|].
      cbn [read_items_at]. rewrite Ey, (number_passes _ Hy), IH.
      destruct (PyFloat_AsDouble y); reflexivity.
    + cbn [read_items_at]. rewrite Ey, (number_passes _ Hy), IH.
      destruct (PyFloat_AsDouble y); reflexivity.
Qed.

(** Whatever the element loop raises carries the loop's own message. *)
Lemma read_items_at_raised seq msg : forall count i t exc msg',
  read_items_at seq msg count i t = Raised exc msg' -> msg' = msg.
Proof.
  induction count as [|count IH]; intros i t exc msg' H; [discriminate|].
  cbn [read_items_at] in H.
  destruct (PySequence_GetItem_at seq t i) as [y|]; [|discriminate].
  destruct (negb (PyFloat_Check y) && negb (PyInt_Check y)).
  - inversion H; reflexivity.
  - destruct (PyFloat_AsDouble y) as [d p]. cbn [bind] in H.
    destruct (read_items_at seq msg count (i + 1) (S t)) eqn:E; cbn in H;
      try discriminate.
    inversion H; subst. eapply IH; eassumption.
Qed.

Lemma read_items_at_Normal_inv seq msg : forall count i t l p,
  read_items_at seq msg count i t = Normal l p ->
  items_at is_number seq count i t = true /\
  l = floats_at seq count i t /\ p = pending_at seq count i t.
Proof.
  induction count as [|count IH]; intros i t l p H.
  - inversion H. repeat split; reflexivity.
  - cbn [read_items_at floats_at pending_at items_at] in *.
    unfold item_float_at, item_pending_at.
    destruct (PySequence_GetItem_at seq t i) as [y|]; [|discriminate].
    destruct (is_number y) eqn:Hy.
    2:{ rewrite (non_number_stops _ Hy) in H. discriminate. }
    rewrite (number_passes _ Hy) in H.
    destruct (PyFloat_AsDouble y) as [d q]. cbn [bind fst snd] in *.
    destruct (read_items_at seq msg count (i + 1) (S t)) as [l' p'| | |] eqn:E;
      try discriminate.
    apply IH in E. destruct E as [-> [-> ->]].
    cbn in H. inversion H. repeat split; reflexivity.
Qed.

(** The element loop depends on the answers to its own calls only. *)
Lemma read_items_at_ext seq seq' msg : forall count i t,
  (forall k, (k < count)%nat ->
     PySequence_GetItem_at seq' (t + k) (i + Z.of_nat k)
     = PySequence_GetItem_at seq (t + k) (i + Z.of_nat k)) ->
  read_items_at seq' msg count i t = read_items_at seq msg count i t.
Proof.
  induction count as [|count IH]; intros i t H; [reflexivity|].
  cbn [read_items_at].
  pose proof (H O ltac:(lia)) as H0. rewrite Nat.add_0_r, Z.add_0_r in H0.
  rewrite H0.
  destruct (PySequence_GetItem_at seq t i) as [y|]; [|reflexivity].
  destruct (negb (PyFloat_Check y) && negb (PyInt_Check y)); [reflexivity|].
  rewrite (IH (i + 1) (S t)); [reflexivity|].
  intros k Hk. specialize (H (S k) ltac:(lia)).
  replace (t + S k)%nat with (S t + k)%nat in H by lia.
  replace (i + Z.of_nat (S k)) with (i + 1 + Z.of_nat k) in H by lia.
  exact H.
Qed.

Lemma floats_at_length seq : forall count i t,
  List.length (floats_at seq count i t) = count.
Proof.
  induction count as [|count IH]; intros i t; cbn [floats_at List.length];
    [reflexivity|]. rewrite IH. reflexivity.
Qed.


(** What [arrays_allocated] says. *)
Lemma arrays_allocated_spec stack weight1 weight2 :
  arrays_allocated stack weight1 weight2 = true ->
  sq_check weight1 = true /\ sq_check weight2 = true /\
  PySequence_Size_at weight1 2 = length1_of weight1 /\
  PySequence_Size_at weight2 3 = length2_of weight2 /\
  0 <= length1_of weight1 <= INT_MAX /\ 0 <= length2_of weight2 <= INT_MAX /\
  0 <= length1_of weight1 * length2_of weight2 <= INT_MAX /\
  8 * length1_of weight1 + 8 * length2_of weight2
    + 8 * (length1_of weight1 * length2_of weight2) <= stack /\
  0 <= PySequence_Size_at weight1 0 /\ 0 <= PySequence_Size_at weight2 1.
Proof.
  unfold arrays_allocated. intros H.
  repeat (apply andb_true_iff in H; destruct H as [H ?]).
  repeat match goal with
         | H : (_ <=? _) = true |- _ => apply Z.leb_le in H
         | H : (_ =? _) = true |- _ => apply Z.eqb_eq in H
         end.
  pose proof (int_of_ssize_range (PySequence_Size_at weight1 0)) as R1.
  pose proof (int_of_ssize_range (PySequence_Size_at weight2 1)) as R2.
  pose proof (PySequence_Size_at_range weight1 0) as Q1.
  pose proof (PySequence_Size_at_range weight2 1) as Q2.
  assert (N : int_of_ssize (-1) = -1) by reflexivity.
  fold (length1_of weight1) in R1. fold (length2_of weight2) in R2.
  assert (0 <= PySequence_Size_at weight1 0).
  { destruct (Z.eq_dec (PySequence_Size_at weight1 0) (-1)) as [E|E]; [|lia].
    unfold length1_of in *. rewrite E, N in *. lia. }
  assert (0 <= PySequence_Size_at weight2 1).
  { destruct (Z.eq_dec (PySequence_Size_at weight2 1) (-1)) as [E|E]; [|lia].
    unfold length2_of in *. rewrite E, N in *. lia. }
  unfold INT_MAX in *. repeat split; try assumption; try lia.
Qed.

(** Once lines 29-54 are passed, the code before the solver is the three
    element loops. *)
Lemma compute_emd_run_loops stack weight1 weight2 cost :
  arrays_allocated stack weight1 weight2 = true ->
  compute_emd_run stack weight1 weight2 cost =
    (w1 <- read_items_at weight1 "w1 should be a sequence of numbers"
             (Z.to_nat (length1_of weight1)) 0 4 ;;
     w2 <- read_items_at weight2 "w2 should be a sequence of numbers"
             (Z.to_nat (length2_of weight2)) 0
             (4 + Z.to_nat (length1_of weight1)) ;;
     c <- read_items_at cost "cost should be a sequence of numbers"
            (Z.to_nat (length1_of weight1 * length2_of weight2)) 0
            (4 + Z.to_nat (length1_of weight1) + Z.to_nat (length2_of weight2)) ;;
     Normal ({| n := length1_of weight1; Weights := w1 |},
             {| n := length2_of weight2; Weights := w2 |}, c) None).
Proof.
  intros A.
  destruct (arrays_allocated_spec _ _ _ A)
    as [S1 [S2 [E1 [E2 [L1 [L2 [L12 [F [P1 P2]]]]]]]]].
  unfold compute_emd_run. rewrite S1, S2. cbn [negb]. cbv zeta.
  fold (length1_of weight1) (length2_of weight2).
  rewrite E1, E2, !Z.eqb_refl. cbn [negb].
  rewrite !alloca_request_fits by lia.
  destruct (Z.ltb_spec stack (8 * length1_of weight1)); [lia|].
  destruct (Z.ltb_spec stack (8 * length1_of weight1 + 8 * length2_of weight2));
    [lia|].
  destruct (Z.ltb_spec (length1_of weight1 * length2_of weight2) INT_MIN);
    [unfold INT_MIN in *; lia|].
  destruct (Z.ltb_spec INT_MAX (length1_of weight1 * length2_of weight2)); [lia|].
  cbn [orb].
  destruct (Z.ltb_spec stack (8 * length1_of weight1 + 8 * length2_of weight2
                              + 8 * (length1_of weight1 * length2_of weight2)));
    [lia|].
  assert (Z : size_pending [PySequence_Size_at weight1 0; PySequence_Size_at weight2 1;
                            length1_of weight1; length2_of weight2] = None).
  { unfold size_pending. cbn [existsb].
    destruct (Z.ltb_spec (PySequence_Size_at weight1 0) 0); [lia|].
    destruct (Z.ltb_spec (PySequence_Size_at weight2 1) 0); [lia|].
    destruct (Z.ltb_spec (length1_of weight1) 0); [lia|].
    destruct (Z.ltb_spec (length2_of weight2) 0); [lia|]. reflexivity. }
  rewrite Z. apply bind_unit_None.
Qed.

Lemma all_read_spec ok weight1 weight2 cost :
  all_read ok weight1 weight2 cost = true ->
  items_at ok weight1 (Z.to_nat (length1_of weight1)) 0 4 = true /\
  items_at ok weight2 (Z.to_nat (length2_of weight2)) 0
    (4 + Z.to_nat (length1_of weight1)) = true /\
  items_at ok cost (Z.to_nat (length1_of weight1 * length2_of weight2)) 0
    (4 + Z.to_nat (length1_of weight1) + Z.to_nat (length2_of weight2)) = true.
Proof.
  unfold all_read, weights_read, loop_reads. cbn [loop_object loop_start].
  intros H. repeat (apply andb_true_iff in H; destruct H as [H ?]).
  repeat split; assumption.
Qed.



(** All three arguments hold numbers where the loops look: the solver is
    called on the converted arrays. *)
Lemma compute_emd_run_numbers stack weight1 weight2 cost :
  arrays_allocated stack weight1 weight2 = true ->
  all_read is_number weight1 weight2 cost = true ->
  compute_emd_run stack weight1 weight2 cost
  = Normal (run_arrays weight1 weight2 cost) (run_pending weight1 weight2 cost).
Proof.
  intros A H. destruct (all_read_spec _ _ _ _ H) as [H1 [H2 H3]].
  rewrite compute_emd_run_loops by assumption.
  rewrite !read_items_at_numbers by assumption.
  unfold run_arrays, run_pending, loop_array, loop_pending.
  cbn [bind loop_object loop_bound loop_start].
  destruct (pending_at cost _ 0 _), (pending_at weight2 _ 0 _),
    (pending_at weight1 _ 0 _); reflexivity.
Qed.


(** Two values of cost that answer alike where the loop over cost asks give
    the same run. *)
Lemma compute_emd_run_cost_ext stack weight1 weight2 cost cost' :
  same_cost_read weight1 weight2 cost cost' ->
  compute_emd_run stack weight1 weight2 cost'
  = compute_emd_run stack weight1 weight2 cost.
Proof.
  intros H. unfold compute_emd_run. cbv zeta.
  fold (length1_of weight1) (length2_of weight2).
  rewrite (read_items_at_ext cost cost'); [reflexivity|].
  intros k Hk. specialize (H (Z.of_nat k) ltac:(lia)).
  unfold loop_item in H. cbn [loop_object loop_start] in H.
  rewrite Nat2Z.id, Z.add_0_l in *. exact H.
Qed.

(** What a run that gets to the solver has passed on its way. *)
Lemma compute_emd_run_Normal_inv stack weight1 weight2 cost r p :
  stack < 2 ^ 63 ->
  compute_emd_run stack weight1 weight2 cost = Normal r p ->
  arrays_allocated stack weight1 weight2 = true /\
  all_read is_number weight1 weight2 cost = true /\
  r = run_arrays weight1 weight2 cost /\ p = run_pending weight1 weight2 cost.
Proof.
  intros B H.
  assert (A : arrays_allocated stack weight1 weight2 = true).
  { unfold compute_emd_run in H. unfold arrays_allocated.
    destruct (sq_check weight1); [|discriminate].
    destruct (sq_check weight2); [|discriminate].
    cbn [negb andb] in *. cbv zeta in H.
    fold (length1_of weight1) (length2_of weight2) in H.
    destruct (Z.eqb_spec (PySequence_Size_at weight1 2) (length1_of weight1))
      as [E1|]; [|discriminate].
    destruct (Z.eqb_spec (PySequence_Size_at weight2 3) (length2_of weight2))
      as [E2|]; [|discriminate].
    cbn [negb andb] in *.
    pose proof (int_of_ssize_range (PySequence_Size_at weight1 0)) as R1.
    pose proof (int_of_ssize_range (PySequence_Size_at weight2 1)) as R2.
    fold (length1_of weight1) in R1. fold (length2_of weight2) in R2.
    destruct (Z.ltb_spec stack (alloca_request (length1_of weight1)));
      [discriminate|].
    destruct (Z.ltb_spec stack (alloca_request (length1_of weight1)
                                + alloca_request (length2_of weight2)));
      [discriminate|].
    destruct (Z.ltb_spec (length1_of weight1 * length2_of weight2) INT_MIN);
      [discriminate|].
    destruct (Z.ltb_spec INT_MAX (length1_of weight1 * length2_of weight2));
      [discriminate|].
    cbn [orb] in H.
    destruct (Z.ltb_spec stack (alloca_request (length1_of weight1)
                                + alloca_request (length2_of weight2)
                                + alloca_request
                                    (length1_of weight1 * length2_of weight2)));
      [discriminate|].
    pose proof (alloca_request_nonneg (length1_of weight1)).
    pose proof (alloca_request_nonneg (length2_of weight2)).
    assert (P1 : 0 <= length1_of weight1).
    { destruct (Z.le_gt_cases 0 (length1_of weight1)); [assumption|].
      pose proof (alloca_request_negative (length1_of weight1) ltac:(lia)). lia. }
    assert (P2 : 0 <= length2_of weight2).
    { destruct (Z.le_gt_cases 0 (length2_of weight2)); [assumption|].
      pose proof (alloca_request_negative (length2_of weight2) ltac:(lia)). lia. }
    assert (P12 : 0 <= length1_of weight1 * length2_of weight2)
      by (apply Z.mul_nonneg_nonneg; assumption).
    rewrite !alloca_request_fits in * by (unfold INT_MAX in *; lia).
    repeat (apply andb_true_iff; split); try reflexivity;
      apply Z.leb_le; assumption. }
  rewrite compute_emd_run_loops in H by assumption.
  destruct (read_items_at weight1 _ _ 0 _) as [l1 p1| | |] eqn:R1; try discriminate.
  destruct (read_items_at weight2 _ _ 0 _) as [l2 p2| | |] eqn:R2; try discriminate.
  destruct (read_items_at cost _ _ 0 _) as [l3 p3| | |] eqn:R3; try discriminate.
  apply read_items_at_Normal_inv in R1, R2, R3.
  destruct R1 as [N1 [-> ->]], R2 as [N2 [-> ->]], R3 as [N3 [-> ->]].
  split; [exact A|]. split.
  - unfold all_read, weights_read, loop_reads. cbn [loop_object loop_start].
    rewrite N1, N2, N3. reflexivity.
  - cbn in H. inversion H; subst. split; reflexivity.
Qed.

(** On arguments of the built-in types with fewer than 2^63 items, and on a
    stack that holds the three arrays, the run is [compute_emd_args]. *)
Lemma read_items_at_builtin seq msg : forall count i t,
  0 <= i ->
  read_items_at (builtin seq) msg count i t = read_items seq msg count i.
Proof.
  induction count as [|count IH]; intros i t Hi; [reflexivity|].
  cbn [read_items_at read_items].
  assert (E : PySequence_GetItem_at (builtin seq) t i = PySequence_GetItem seq i).
  { unfold PySequence_GetItem_at. cbn [builtin sq_check sq_item].
    destruct (Z.ltb_spec i 0); [lia|].
    destruct (PySequence_Check seq) eqn:S; [reflexivity|].
    unfold PySequence_GetItem. destruct (Z.ltb_spec i 0); [lia|].
    destruct (Z.ltb_spec i 0); [lia|].
    destruct seq; simpl in S; try discriminate; reflexivity. }
  rewrite E. destruct (PySequence_GetItem seq i) as [y|]; [|reflexivity].
  destruct (negb (PyFloat_Check y) && negb (PyInt_Check y)); [reflexivity|].
  rewrite IH by lia. reflexivity.
Qed.

Lemma PySequence_Size_at_builtin o t :
  PySequence_Check o = true -> PySequence_Size o <= PY_SSIZE_T_MAX ->
  PySequence_Size_at (builtin o) t = PySequence_Size o.
Proof.
  intros S B. unfold PySequence_Size_at. cbn [builtin sq_check sq_length].
  rewrite S. cbv zeta. pose proof (PySequence_Size_nonneg _ S).
  destruct (Z.leb_spec 0 (PySequence_Size o)); [|lia].
  destruct (Z.leb_spec (PySequence_Size o) PY_SSIZE_T_MAX); [reflexivity|lia].
Qed.

Lemma compute_emd_run_builtin stack weight1 weight2 cost :
  PySequence_Size weight1 <= PY_SSIZE_T_MAX ->
  PySequence_Size weight2 <= PY_SSIZE_T_MAX ->
  (PySequence_Size weight1 <= INT_MAX -> PySequence_Size weight2 <= INT_MAX ->
   8 * PySequence_Size weight1 + 8 * PySequence_Size weight2
   + 8 * (PySequence_Size weight1 * PySequence_Size weight2) <= stack) ->
  compute_emd_run stack (builtin weight1) (builtin weight2) (builtin cost)
  = compute_emd_args weight1 weight2 cost.
Proof.
  intros B1 B2 F. unfold compute_emd_run, compute_emd_args.
  change (sq_check (builtin weight1)) with (PySequence_Check weight1).
  change (sq_check (builtin weight2)) with (PySequence_Check weight2).
  destruct (PySequence_Check weight1) eqn:S1; [|reflexivity].
  destruct (PySequence_Check weight2) eqn:S2; [|reflexivity].
  cbn [negb]. cbv zeta.
  rewrite !PySequence_Size_at_builtin by assumption.
  pose proof (PySequence_Size_nonneg _ S1) as P1.
  pose proof (PySequence_Size_nonneg _ S2) as P2.
  destruct (Z.eqb_spec (PySequence_Size weight1)
              (int_of_ssize (PySequence_Size weight1))) as [E1|]; [|reflexivity].
  destruct (Z.eqb_spec (PySequence_Size weight2)
              (int_of_ssize (PySequence_Size weight2))) as [E2|]; [|reflexivity].
  cbn [negb]. rewrite <- E1, <- E2.
  pose proof (int_of_ssize_range (PySequence_Size weight1)) as R1.
  pose proof (int_of_ssize_range (PySequence_Size weight2)) as R2.
  rewrite <- E1 in R1. rewrite <- E2 in R2.
  specialize (F ltac:(unfold INT_MAX; lia) ltac:(unfold INT_MAX; lia)).
  assert (P12 : 0 <= PySequence_Size weight1 * PySequence_Size weight2)
    by (apply Z.mul_nonneg_nonneg; assumption).
  rewrite !(alloca_request_fits (PySequence_Size _)) by (unfold INT_MAX; lia).
  destruct (Z.ltb_spec stack (8 * PySequence_Size weight1)); [lia|].
  destruct (Z.ltb_spec stack (8 * PySequence_Size weight1
                              + 8 * PySequence_Size weight2)); [lia|].
  destruct (Z.ltb_spec (PySequence_Size weight1 * PySequence_Size weight2) INT_MIN);
    [unfold INT_MIN in *; lia|].
  cbn [orb].
  destruct (Z.ltb_spec INT_MAX (PySequence_Size weight1 * PySequence_Size weight2));
    [reflexivity|].
  rewrite alloca_request_fits by lia.
  destruct (Z.ltb_spec stack (8 * PySequence_Size weight1
                              + 8 * PySequence_Size weight2
                              + 8 * (PySequence_Size weight1
                                     * PySequence_Size weight2))); [lia|].
  assert (Z : size_pending [PySequence_Size weight1; PySequence_Size weight2;
                            PySequence_Size weight1; PySequence_Size weight2] = None).
  { unfold size_pending. cbn [existsb].
    destruct (Z.ltb_spec (PySequence_Size weight1) 0); [lia|].
    destruct (Z.ltb_spec (PySequence_Size weight2) 0); [lia|]. reflexivity. }
  rewrite Z, bind_unit_None. cbv beta.
  rewrite !read_items_at_builtin by lia. reflexivity.
Qed.

(** ** The length of [cost] *)




(** ** Empty distributions *)




(** ** Items of [cost] that are not there *)

(** C3.  [weight1] and [weight2] pass through [PySequence_Check]; [cost]
    does not, and its length is never looked at.  When [cost] is no
    sequence, or a sequence of numbers shorter than length1 * length2, some
    [PySequence_GetItem(cost, i)] with i < length1 * length2 returns NULL,
    and that NULL is handed to [PyFloat_Check]: the call has no defined
    behaviour, no exception is raised and the solver is not reached. *)
Theorem cost_null_item_unchecked emd0 weight1 weight2 cost :
  PySequence_Check weight1 = true -> PySequence_Check weight2 = true ->
  PySequence_Size weight1 <= INT_MAX -> PySequence_Size weight2 <= INT_MAX ->
  PySequence_Size weight1 * PySequence_Size weight2 <= INT_MAX ->
  numbers_upto weight1 (PySequence_Size weight1) = true ->
  numbers_upto weight2 (PySequence_Size weight2) = true ->
  0 < PySequence_Size weight1 * PySequence_Size weight2 ->
  PySequence_Check cost = false \/
  (PySequence_Size cost < PySequence_Size weight1 * PySequence_Size weight2 /\
   numbers_upto cost (PySequence_Size cost) = true) ->
  (exists i, 0 <= i < PySequence_Size weight1 * PySequence_Size weight2 /\
             PySequence_GetItem cost i = None) /\
  compute_emd_args weight1 weight2 cost = Undefined NullItem /\
  compute_emd emd0 weight1 weight2 cost = Undefined NullItem.
Proof.
  intros S1 S2 B1 B2 B12 N1 N2 Hpos Hcost.
  assert (Hk : exists k, 0 <= k < PySequence_Size weight1 * PySequence_Size weight2
                 /\ numbers_upto cost k = true
                 /\ PySequence_GetItem cost k = None).
  { destruct Hcost as [Hns | [Hshort Hnum]].
    - exists 0. repeat split; try lia.
      destruct cost; simpl in Hns; try discriminate; reflexivity.
    - destruct (PySequence_Check cost) eqn:Sc.
      + exists (PySequence_Size cost).
        pose proof (PySequence_Size_nonneg _ Sc).
        repeat split; try lia; try assumption.
        unfold PySequence_GetItem.
        destruct (Z.ltb_spec (PySequence_Size cost) 0); [lia|].
        destruct (Z.ltb_spec (PySequence_Size cost) 0); [lia|].
        destruct cost; simpl in *; try discriminate.
        * destruct (String.get (Z.to_nat (Z.of_nat (String.length s))) s) eqn:E;
            [|reflexivity].
          rewrite Nat2Z.id in E.
          rewrite string_get_none in E by lia. discriminate.
        * apply nth_error_None. lia.
        * apply nth_error_None. lia.
        * destruct (Z.ltb_spec (Z.max 0 stop) stop); [lia|reflexivity].
      + exists 0. repeat split; try lia.
        destruct cost; simpl in Sc; try discriminate; reflexivity. }
  destruct Hk as [k [Hk [Hnum Hnull]]].
  assert (E : compute_emd_args weight1 weight2 cost = Undefined NullItem).
  { rewrite compute_emd_args_loops by assumption.
    rewrite !read_items_numbers by (apply numbers_upto_from; assumption).
    cbn [bind].
    rewrite (read_items_null cost _ _ 0 k); try assumption; try lia.
    - reflexivity.
    - intros j Hj. apply (numbers_upto_below cost k Hnum). lia. }
  split; [exists k; split; [lia|assumption]|].
  split; [exact E|].
  unfold compute_emd. rewrite E. reflexivity.
Qed.

Lemma cost_null_item_unchecked_witness :
  (exists i, 0 <= i < PySequence_Size (ints [1; 2]) * PySequence_Size (ints [3])
             /\ PySequence_GetItem (ints [5]) i = None) /\
  compute_emd_args (ints [1; 2]) (ints [3]) (ints [5]) = Undefined NullItem /\
  compute_emd emd (ints [1; 2]) (ints [3]) (ints [5]) = Undefined NullItem.
Proof.
  apply (cost_null_item_unchecked emd (ints [1; 2]) (ints [3]) (ints [5]));
    try solve [reflexivity | vm_compute; discriminate].
  right. split; reflexivity.
Defined.

(** ** Items that are not numbers *)

(** C4, as amended.  When the weights pass lines 29-54, the first item that
    is neither an int nor a float among the items the element loops get
    (those of weight1, then those of weight2, then the first
    length1 * length2 items of cost), the items before it being numbers,
    makes [compute_emd] raise TypeError with the message of the argument it
    belongs to; the function returns there, before line 97, whatever the
    solver is.  Items of cost beyond length1 * length2 are never read: any
    other [cost] that answers alike for the first length1 * length2 items
    gives the same TypeError. *)
Theorem non_number_raises_TypeError stack emd0 weight1 weight2 cost a k :
  arrays_allocated stack weight1 weight2 = true ->
  first_bad not_a_number weight1 weight2 cost a k = true ->
  compute_emd_run stack weight1 weight2 cost
    = Raised PyExc_TypeError (loop_message a) /\
  compute_emd_on stack emd0 weight1 weight2 cost
    = Raised PyExc_TypeError (loop_message a) /\
  forall cost', same_cost_read weight1 weight2 cost cost' ->
    compute_emd_on stack emd0 weight1 weight2 cost'
    = Raised PyExc_TypeError (loop_message a).
Proof.
  intros A H.
  assert (E : compute_emd_run stack weight1 weight2 cost
              = Raised PyExc_TypeError (loop_message a)).
  { rewrite compute_emd_run_loops by assumption.
    unfold first_bad in H.
    repeat (apply andb_true_iff in H; destruct H as [H ?]).
    apply Z.leb_le in H. apply Z.ltb_lt in H3.
    unfold loop_reads, loop_item in *.
    assert (S : forall seq msg count t,
              (Z.to_nat k < count)%nat ->
              items_at is_number seq (Z.to_nat k) 0 t = true ->
              not_a_number (PySequence_GetItem_at seq (t + Z.to_nat k) k) = true ->
              read_items_at seq msg count 0 t = Raised PyExc_TypeError msg).
    { intros seq msg count t Hc Hn Hb.
      rewrite (read_items_at_stops seq msg count 0 t (Z.to_nat k) Hc Hn).
      rewrite Z.add_0_l, Z2Nat.id by assumption.
      destruct (PySequence_GetItem_at seq (t + Z.to_nat k) k) as [x|];
        [|discriminate].
      cbn [not_a_number] in Hb. destruct (is_number x); [discriminate|reflexivity]. }
    destruct a; cbn [loop_object loop_bound loop_start loop_message] in *.
    - rewrite (S weight1) by (assumption || lia). reflexivity.
    - rewrite read_items_at_numbers by assumption. cbn [bind].
      rewrite (S weight2) by (assumption || lia). reflexivity.
    - apply andb_true_iff in H2. destruct H2 as [N1 N2].
      rewrite !read_items_at_numbers by assumption. cbn [bind].
      rewrite (S cost) by (assumption || lia). reflexivity. }
  split; [exact E|]. split.
  - unfold compute_emd_on. rewrite E. reflexivity.
  - intros cost' Hc. unfold compute_emd_on.
    rewrite (compute_emd_run_cost_ext _ _ _ _ _ Hc), E. reflexivity.
Qed.

Lemma non_number_raises_TypeError_witness :
  let weight1 := builtin (ints [1]) in
  let weight2 := builtin (ints [2; 3]) in
  let cost := builtin (PyList [PyLong 5; PyUnicode "x"]) in
  compute_emd_run 8388608 weight1 weight2 cost
    = Raised PyExc_TypeError (loop_message arg_cost) /\
  compute_emd_on 8388608 emd weight1 weight2 cost
    = Raised PyExc_TypeError (loop_message arg_cost) /\
  forall cost', same_cost_read weight1 weight2 cost cost' ->
    compute_emd_on 8388608 emd weight1 weight2 cost'
    = Raised PyExc_TypeError (loop_message arg_cost).
Proof.
  intros weight1 weight2 cost.
  apply (non_number_raises_TypeError 8388608 emd weight1 weight2 cost arg_cost 1);
    vm_compute; reflexivity.
Defined.

(** C4, the claim as stated fails: with weight1 = [1], weight2 = [1] and
    cost = [5, "x"] the item "x" of cost is no number, and yet no TypeError
    is raised and the solver is called, on [5]. *)
Lemma non_number_raises_TypeError_counterexample :
  PySequence_GetItem (PyList [PyLong 5; PyUnicode "x"]) 1 = Some (PyUnicode "x") /\
  is_number (PyUnicode "x") = false /\
  solver_invoked (ints [1]) (ints [1]) (PyList [PyLong 5; PyUnicode "x"]) = true /\
  compute_emd_args (ints [1]) (ints [1]) (PyList [PyLong 5; PyUnicode "x"])
  = Normal ({| n := 1; Weights := [float_of_Z 1] |},
            {| n := 1; Weights := [float_of_Z 1] |}, [float_of_Z 5]) None /\
  compute_emd_run 8388608 (builtin (ints [1])) (builtin (ints [1]))
    (builtin (PyList [PyLong 5; PyUnicode "x"]))
  = Normal ({| n := 1; Weights := [float_of_Z 1] |},
            {| n := 1; Weights := [float_of_Z 1] |}, [float_of_Z 5]) None.
Proof. repeat split. Qed.

(** ** The length checks of lines 42-50 *)

(** C9, as amended.  For weights each of which answers the two calls of
    [PySequence_Size] (lines 39 and 42, 40 and 47) with the same length, a
    length that fits in a C [int], the two comparisons with [length1] and
    [length2] never fail, and no run ends in "feature1 and weight1 must be
    the same" or "feature2 and weight2 must be the same". *)
Theorem length_checks_pass_within_int stack weight1 weight2 cost :
  PySequence_Size_at weight1 2 = PySequence_Size_at weight1 0 ->
  PySequence_Size_at weight1 0 <= INT_MAX ->
  PySequence_Size_at weight2 3 = PySequence_Size_at weight2 1 ->
  PySequence_Size_at weight2 1 <= INT_MAX ->
  (PySequence_Size_at weight1 2 =? length1_of weight1) = true /\
  (PySequence_Size_at weight2 3 =? length2_of weight2) = true /\
  forall exc msg,
    compute_emd_run stack weight1 weight2 cost = Raised exc msg ->
    msg <> "feature1 and weight1 must be the same"%string /\
    msg <> "feature2 and weight2 must be the same"%string.
Proof.
  intros E1 B1 E2 B2.
  assert (C1 : (PySequence_Size_at weight1 2 =? length1_of weight1) = true).
  { unfold length1_of. pose proof (PySequence_Size_at_range weight1 0).
    rewrite int_of_ssize_id by lia. apply Z.eqb_eq. exact E1. }
  assert (C2 : (PySequence_Size_at weight2 3 =? length2_of weight2) = true).
  { unfold length2_of. pose proof (PySequence_Size_at_range weight2 1).
    rewrite int_of_ssize_id by lia. apply Z.eqb_eq. exact E2. }
  split; [exact C1|]. split; [exact C2|].
  intros exc msg H. unfold compute_emd_run in H.
  destruct (sq_check weight1); [|inversion H; split; discriminate].
  destruct (sq_check weight2); [|inversion H; split; discriminate].
  cbn [negb] in H. cbv zeta in H.
  fold (length1_of weight1) (length2_of weight2) in H.
  rewrite C1, C2 in H. cbn [negb] in H.
  destruct (stack <? _); [discriminate|].
  destruct (stack <? _); [discriminate|].
  destruct (_ || _); [discriminate|].
  destruct (stack <? _); [discriminate|].
  apply bind_Normal_Raised in H.
  destruct (read_items_at weight1 _ _ 0 _) eqn:R1; cbn [bind] in H;
    try discriminate.
  2:{ inversion H; subst. apply read_items_at_raised in R1. subst msg.
      split; discriminate. }
  destruct (read_items_at weight2 _ _ 0 _) eqn:R2; cbn [bind] in H;
    try discriminate.
  2:{ inversion H; subst. apply read_items_at_raised in R2. subst msg.
      split; discriminate. }
  destruct (read_items_at cost _ _ 0 _) eqn:R3; cbn [bind] in H;
    try discriminate.
  inversion H; subst. apply read_items_at_raised in R3. subst msg.
  split; discriminate.
Qed.

Lemma length_checks_pass_within_int_witness :
  let weight1 := builtin (ints [1]) in
  let weight2 := builtin (ints [2]) in
  (PySequence_Size_at weight1 2 =? length1_of weight1) = true /\
  (PySequence_Size_at weight2 3 =? length2_of weight2) = true /\
  forall exc msg,
    compute_emd_run 8388608 weight1 weight2 (builtin (ints [5])) = Raised exc msg ->
    msg <> "feature1 and weight1 must be the same"%string /\
    msg <> "feature2 and weight2 must be the same"%string.
Proof.
  intros weight1 weight2.
  apply (length_checks_pass_within_int 8388608 weight1 weight2 (builtin (ints [5])));
    vm_compute; solve [reflexivity | discriminate].
Defined.

(** C9, the claim as stated fails: range(2**31) is a sequence of
    2147483648 items; its size does not survive the assignment to the
    [int] [length1], the comparison of line 42 fails and the call ends in
    "feature1 and weight1 must be the same".  Likewise for weight2.  The
    same on a stack of 8 MiB; and there a sequence that says 1 and then 2
    when asked for its length ends in the same message. *)
Lemma length_checks_pass_within_int_counterexample :
  PySequence_Check (PyRange (2 ^ 31)) = true /\
  (PySequence_Size (PyRange (2 ^ 31))
     =? int_of_ssize (PySequence_Size (PyRange (2 ^ 31)))) = false /\
  compute_emd_args (PyRange (2 ^ 31)) (ints [1]) (ints [5])
    = Raised PyExc_TypeError "feature1 and weight1 must be the same" /\
  compute_emd_args (ints [1]) (PyRange (2 ^ 31)) (ints [5])
    = Raised PyExc_TypeError "feature2 and weight2 must be the same" /\
  compute_emd_run 8388608 (builtin (PyRange (2 ^ 31))) (builtin (ints [1]))
    (builtin (ints [5]))
    = Raised PyExc_TypeError "feature1 and weight1 must be the same" /\
  compute_emd_run 8388608 growing (builtin (ints [1])) (builtin (ints [5]))
    = Raised PyExc_TypeError "feature1 and weight1 must be the same".
Proof. repeat split. Qed.

(** ** Calls that neither return nor raise *)

(** C5, the failing call: with weight1 = [1], weight2 = [1] and cost = []
    the fetch of cost[0] returns NULL, which [PyFloat_Check] reads through;
    the call neither returns a distance nor raises an exception, whatever
    the solver is. *)
Theorem short_cost_neither_returns_nor_raises emd0 :
  PySequence_GetItem (ints []) 0 = None /\
  compute_emd emd0 (ints [1]) (ints [1]) (ints []) = Undefined NullItem.
Proof. split; reflexivity. Qed.

(** ** What the arrays hold *)

Lemma read_items_Normal_inv seq msg : forall count i l p,
  read_items seq msg count i = Normal l p ->
  l = floats_from seq count i /\ p = pending_from seq count i.
Proof.
  induction count as [|count IH]; intros i l p H.
  - inversion H. split; reflexivity.
  - cbn [read_items floats_from pending_from] in *.
    unfold item_float, item_pending.
    destruct (PySequence_GetItem seq i) as [y|]; [|discriminate].
    destruct (negb (PyFloat_Check y) && negb (PyInt_Check y)); [discriminate|].
    destruct (PyFloat_AsDouble y) as [d q]. cbn [bind fst snd] in *.
    destruct (read_items seq msg count (i + 1)) as [l' p'| | |] eqn:E;
      try discriminate.
    apply IH in E. destruct E as [-> ->].
    cbn in H. inversion H. split; reflexivity.
Qed.

(** What a call that reaches the solver has done. *)
Lemma compute_emd_args_inv weight1 weight2 cost signature1 signature2 c p :
  compute_emd_args weight1 weight2 cost = Normal (signature1, signature2, c) p ->
  n signature1 = PySequence_Size weight1 /\
  n signature2 = PySequence_Size weight2 /\
  Weights signature1 = floats_of weight1 (n signature1) /\
  Weights signature2 = floats_of weight2 (n signature2) /\
  c = floats_of cost (n signature1 * n signature2) /\
  p = later (pending_of weight1 (n signature1))
        (later (pending_of weight2 (n signature2))
           (pending_of cost (n signature1 * n signature2))).
Proof.
  unfold compute_emd_args. intros H.
  destruct (PySequence_Check weight1); [|discriminate].
  destruct (PySequence_Check weight2); [|discriminate].
  cbn [negb] in H.
  destruct (Z.eqb_spec (PySequence_Size weight1)
              (int_of_ssize (PySequence_Size weight1))) as [E1|]; [|discriminate].
  destruct (Z.eqb_spec (PySequence_Size weight2)
              (int_of_ssize (PySequence_Size weight2))) as [E2|]; [|discriminate].
  cbn [negb] in H. rewrite <- E1, <- E2 in H.
  destruct (INT_MAX <? _); [discriminate|].
  destruct (read_items weight1 _ _ 0) as [l1 p1| | |] eqn:R1; try discriminate.
  destruct (read_items weight2 _ _ 0) as [l2 p2| | |] eqn:R2; try discriminate.
  destruct (read_items cost _ _ 0) as [l3 p3| | |] eqn:R3; try discriminate.
  apply read_items_Normal_inv in R1, R2, R3.
  destruct R1 as [-> ->], R2 as [-> ->], R3 as [-> ->].
  cbn in H. inversion H; subst. cbn [n Weights].
  repeat split; reflexivity.
Qed.

Lemma floats_from_nth seq : forall count i k,
  (k < count)%nat ->
  nth_error (floats_from seq count i) k = Some (item_float seq (i + Z.of_nat k)).
Proof.
  induction count as [|count IH]; intros i k Hk; [lia|].
  destruct k as [|k]; cbn [floats_from nth_error].
  - rewrite Z.add_0_r. reflexivity.
  - rewrite IH by lia. f_equal. f_equal. lia.
Qed.

(** Entry [i] of the array filled from [seq] is item [i], converted to
    double by [PyFloat_AsDouble] and narrowed to float by the store. *)
Lemma floats_of_nth seq k i x :
  0 <= i < k -> PySequence_GetItem seq i = Some x ->
  nth_error (floats_of seq k) (Z.to_nat i)
  = Some (double_to_float (fst (PyFloat_AsDouble x))).
Proof.
  intros Hi Hx. unfold floats_of. rewrite floats_from_nth by lia.
  unfold item_float. rewrite Z2Nat.id by lia. simpl. rewrite Hx. reflexivity.
Qed.

Lemma double_to_float_valid x : valid_binary 24 128 (double_to_float x) = true.
Proof.
  destruct x; try reflexivity. apply binary_round_valid. lia.
Qed.


(** * Signs and order of single-precision numbers *)

Lemma binary_round_sign prec emax s m e :
  match binary_round prec emax s m e with
  | S754_zero s' | S754_infinity s' | S754_finite s' _ _ => s' = s
  | S754_nan => False
  end.
Proof.
  unfold binary_round.
  destruct (shl_align m e (fexp prec emax (Zpos (digits2_pos m) + e))).
  apply binary_round_aux_sign. lia.
Qed.

Lemma binary_round_notneg prec emax m e :
  notneg (binary_round prec emax false m e) = true.
Proof.
  pose proof (binary_round_sign prec emax false m e) as H.
  destruct (binary_round prec emax false m e); simpl; subst; tauto.
Qed.

Lemma binary_round_aux_notneg prec emax m e l :
  notneg (binary_round_aux prec emax false (Zpos m) e l) = true.
Proof.
  pose proof (binary_round_aux_sign prec emax false (Zpos m) e l ltac:(lia)) as H.
  destruct (binary_round_aux prec emax false (Zpos m) e l); simpl; subst; tauto.
Qed.

Lemma binary_normalize_notneg prec emax z e :
  0 <= z -> notneg (binary_normalize prec emax z e false) = true.
Proof.
  destruct z; simpl; intros; try lia;
    first [reflexivity | apply binary_round_notneg].
Qed.

(** A number that is [>= 0]: not negative and no NaN. *)
Lemma fleb_zero_notneg x :
  fleb fzero x = true <-> notneg x = true /\ is_nan x = false.
Proof.
  unfold fleb, fzero.
  destruct x as [s|s| |s m e]; try destruct s; simpl; intuition congruence.
Qed.

Lemma add_notneg x y :
  notneg x = true -> notneg y = true -> notneg (f32_add x y) = true.
Proof.
  unfold f32_add.
  destruct x as [sx|sx| |sx mx ex], y as [sy|sy| |sy my ey];
    try destruct sx; try destruct sy; try (simpl; congruence).
  intros _ _. cbn [SFadd cond_Zopp]. apply binary_normalize_notneg. lia.
Qed.

Lemma mul_notneg x y :
  notneg x = true -> notneg y = true -> notneg (f32_mul x y) = true.
Proof.
  unfold f32_mul.
  destruct x as [sx|sx| |sx mx ex], y as [sy|sy| |sy my ey];
    try destruct sx; try destruct sy; try (simpl; congruence).
  intros _ _. cbn [SFmul xorb]. apply binary_round_aux_notneg.
Qed.

(** [x - y] is not negative unless [x < y]. *)
Lemma sub_notneg x y :
  notneg x = true -> notneg y = true -> fltb x y = false ->
  notneg (f32_sub x y) = true.
Proof.
  unfold f32_sub, fltb.
  destruct x as [sx|sx| |sx mx ex], y as [sy|sy| |sy my ey];
    try destruct sx; try destruct sy; try (simpl; congruence).
  cbn [SFsub fcompare cond_Zopp].
  intros _ _ H. apply binary_normalize_notneg.
  destruct (Z.compare_spec (Zpos (fst (shl_align mx ex (Z.min ex ey))))
              (Zpos (fst (shl_align my ey (Z.min ex ey))))) as [E|E|E];
    try discriminate; lia.
Qed.

Lemma fltb_irrefl x : fltb x x = false.
Proof.
  unfold fltb. destruct x as [s|s| |s m e]; try destruct s;
    try reflexivity; cbn [fcompare]; rewrite Z.compare_refl; reflexivity.
Qed.

(** Two finite numbers that are not negative compare as their mantissas do
    at any exponent below both of theirs. *)
Lemma fcompare_scaled mx ex my ey k :
  k <= ex -> k <= ey ->
  fcompare (S754_finite false mx ex) (S754_finite false my ey)
  = Some (Zpos mx * 2 ^ (ex - k) ?= Zpos my * 2 ^ (ey - k)).
Proof.
  intros Hx Hy. cbn [fcompare cond_Zopp].
  destruct (shl_align_spec mx ex (Z.min ex ey)) as [-> _].
  destruct (shl_align_spec my ey (Z.min ex ey)) as [-> _].
  replace (Z.min ex (Z.min ex ey)) with (Z.min ex ey) by lia.
  replace (Z.min ey (Z.min ex ey)) with (Z.min ex ey) by lia.
  set (j := Z.min ex ey).
  assert (P : 0 < 2 ^ (j - k)) by (apply Z.pow_pos_nonneg; lia).
  replace (ex - k) with ((ex - j) + (j - k)) by lia.
  replace (ey - k) with ((ey - j) + (j - k)) by lia.
  rewrite !Z.pow_add_r by lia. rewrite !Z.mul_assoc.
  f_equal. apply Zmult_compare_compat_r. lia.
Qed.

Lemma fltb_asym x y : fltb x y = true -> fltb y x = false.
Proof.
  unfold fltb.
  destruct x as [sx|sx| |sx mx ex], y as [sy|sy| |sy my ey];
    try destruct sx; try destruct sy; try (simpl; congruence);
    cbn [fcompare]; rewrite (Z.min_comm ey ex); rewrite Z.compare_antisym;
    match goal with |- context [?a ?= ?b] => destruct (a ?= b) end;
    simpl; congruence.
Qed.

(** If [f] is not below [b] and [y] is below [b], then [f] is not below
    [y]. *)
Lemma fltb_not_below f b y :
  notneg f = true -> notneg b = true -> notneg y = true ->
  fltb f b = false -> fltb y b = true -> fltb f y = false.
Proof.
  destruct f as [sf|sf| |sf mf ef], b as [sb|sb| |sb mb eb],
    y as [sy|sy| |sy my ey];
    try destruct sf; try destruct sb; try destruct sy;
    try (simpl; congruence); try (vm_compute; congruence).
  intros _ _ _. unfold fltb.
  set (k := Z.min ef (Z.min eb ey)).
  rewrite (fcompare_scaled mf ef mb eb k), (fcompare_scaled my ey mb eb k),
    (fcompare_scaled mf ef my ey k) by lia.
  destruct (Z.compare_spec (Zpos mf * 2 ^ (ef - k)) (Zpos mb * 2 ^ (eb - k)));
    destruct (Z.compare_spec (Zpos my * 2 ^ (ey - k)) (Zpos mb * 2 ^ (eb - k)));
    destruct (Z.compare_spec (Zpos mf * 2 ^ (ef - k)) (Zpos my * 2 ^ (ey - k)));
    try congruence; lia.
Qed.

(** * The solver keeps its flows from going negative *)

Lemma all_notneg_nth l k : all_notneg l -> notneg (nth k l fzero) = true.
Proof.
  unfold all_notneg. intros H. revert k.
  induction H as [|x l Hx H IH]; intros [|k]; simpl; auto.
Qed.

Lemma all_notneg_set_nth l k x :
  all_notneg l -> notneg x = true -> all_notneg (set_nth k x l).
Proof.
  unfold all_notneg. intros H Hx. revert k.
  induction H as [|y l Hy H IH]; intros [|k]; simpl; constructor; auto.
Qed.

Lemma all_notneg_firstn k l : all_notneg l -> all_notneg (firstn k l).
Proof.
  unfold all_notneg. intros H. revert k.
  induction H as [|y l Hy H IH]; intros [|k]; simpl; constructor; auto.
Qed.

Lemma all_notneg_skipn k l : all_notneg l -> all_notneg (skipn k l).
Proof.
  unfold all_notneg. intros H. revert k.
  induction H as [|y l Hy H IH]; intros [|k]; simpl; try constructor; auto.
Qed.

Lemma fsum_notneg l : all_notneg l -> notneg (fsum l) = true.
Proof.
  unfold fsum. assert (G : forall acc, notneg acc = true -> all_notneg l ->
                           notneg (fold_left f32_add l acc) = true).
  { induction l as [|x l IH]; intros acc Ha H; simpl; [assumption|].
    inversion H; subst. apply IH; [apply add_notneg|]; assumption. }
  apply G. reflexivity.
Qed.

(** The running minimum of [argmin]: nothing in the list is below it. *)
Lemma fold_min_not_below : forall l b seen,
  all_notneg (b :: seen ++ l) ->
  (forall f, In f seen -> fltb f b = false) ->
  forall f, In f (b :: seen ++ l) ->
    fltb f (fold_left (fun best y => if fltb y best then y else best) l b) = false.
Proof.
  induction l as [|y l IH]; intros b seen Hn Hs f Hf.
  - simpl. rewrite app_nil_r in Hf. destruct Hf as [<-|Hf];
      [apply fltb_irrefl|apply Hs, Hf].
  - cbn [fold_left].
    assert (Hb : notneg b = true) by (inversion Hn; assumption).
    assert (Hrest : all_notneg (seen ++ y :: l)) by (inversion Hn; assumption).
    apply Forall_app in Hrest. destruct Hrest as [Hseen Hyl].
    assert (Hy : notneg y = true) by (inversion Hyl; assumption).
    assert (Hl : all_notneg l) by (inversion Hyl; assumption).
    destruct (fltb y b) eqn:E.
    + apply (IH y (b :: seen)).
      * constructor; [assumption|]. cbn [app]. constructor; [assumption|].
        apply Forall_app. split; assumption.
      * intros g [<-|Hg]; [apply fltb_asym, E|].
        apply (fltb_not_below g b y); try assumption.
        -- unfold all_notneg in Hseen. rewrite Forall_forall in Hseen. auto.
        -- apply Hs, Hg.
      * destruct Hf as [<-|Hf]; [right; left; reflexivity|].
        apply in_app_or in Hf. destruct Hf as [Hf|[<-|Hf]].
        -- right. right. apply in_or_app. left. assumption.
        -- left. reflexivity.
        -- right. right. apply in_or_app. right. assumption.
    + apply (IH b (y :: seen)).
      * constructor; [assumption|]. cbn [app]. constructor; [assumption|].
        apply Forall_app. split; assumption.
      * intros g [<-|Hg]; [assumption|apply Hs, Hg].
      * destruct Hf as [<-|Hf]; [left; reflexivity|].
        apply in_app_or in Hf. destruct Hf as [Hf|[<-|Hf]].
        -- right. right. apply in_or_app. left. assumption.
        -- right. left. reflexivity.
        -- right. right. apply in_or_app. right. assumption.
Qed.

Lemma argmin_in {A : Type} (key : A -> c_float) l a :
  argmin key l = Some a -> In a l.
Proof.
  destruct l as [|x l]; [discriminate|]. cbn [argmin]. intros H.
  inversion H as [E]. clear H E. revert x.
  induction l as [|y l IH]; intros x; [left; reflexivity|].
  cbn [fold_left]. destruct (fltb (key y) (key x)).
  - destruct (IH y) as [<-|H]; [right; left; reflexivity|right; right; exact H].
  - destruct (IH x) as [<-|H]; [left; reflexivity|right; right; exact H].
Qed.

(** The smallest flow can be taken from every flow it was chosen among. *)
Lemma argmin_sub_notneg l theta :
  all_notneg l -> argmin (fun x => x) l = Some theta ->
  notneg theta = true /\
  forall f, In f l -> notneg (f32_sub f theta) = true.
Proof.
  intros Hl H.
  assert (Ht : notneg theta = true).
  { apply argmin_in in H. unfold all_notneg in Hl.
    rewrite Forall_forall in Hl. auto. }
  split; [assumption|]. intros f Hf.
  apply sub_notneg; try assumption.
  - unfold all_notneg in Hl. rewrite Forall_forall in Hl. auto.
  - destruct l as [|x l]; [discriminate|]. cbn [argmin] in H.
    inversion H as [E]. apply (fold_min_not_below l x []); auto.
    intros g [].
Qed.

(** Step 3 keeps the flows from going negative. *)
Lemma pivot_flows_notneg t basis entering basis' :
  flows_notneg basis -> pivot t basis entering = Some basis' ->
  flows_notneg basis'.
Proof.
  unfold pivot. intros Hb H.
  destruct (cycle_from _ _ _ _) as [path|]; [|discriminate].
  set (minus := minus_cells path) in *. set (plus := plus_cells path) in *.
  destruct (argmin _ _) as [theta|] eqn:Et; [|discriminate].
  destruct (find _ (scan t)) as [leaving|]; [|discriminate].
  inversion H; subst basis'. clear H.
  assert (Hm : all_notneg
                 (map flow (filter (fun b => in_cells (cell_of b) minus) basis))).
  { unfold all_notneg. apply Forall_map. unfold flows_notneg in Hb.
    rewrite Forall_forall in *. intros b Hin. apply filter_In in Hin.
    apply Hb, Hin. }
  destruct (argmin_sub_notneg _ _ Hm Et) as [Ht Hsub].
  unfold flows_notneg in *. apply Forall_app. split.
  - rewrite Forall_forall in *. intros b Hin.
    apply filter_In in Hin. destruct Hin as [Hin _].
    apply in_map_iff in Hin. destruct Hin as [b0 [<- Hin]].
    unfold adjust.
    destruct (in_cells (cell_of b0) minus) eqn:Em; cbn [flow].
    + apply Hsub. apply in_map. apply filter_In. split; assumption.
    + destruct (in_cells (cell_of b0) plus); cbn [flow].
      * apply add_notneg; [apply Hb, Hin|assumption].
      * apply Hb, Hin.
  - constructor; [exact Ht|constructor].
Qed.

Lemma simplex_flows_notneg t : forall fuel basis basis',
  flows_notneg basis -> simplex fuel t basis = inr basis' ->
  flows_notneg basis'.
Proof.
  induction fuel as [|fuel IH]; intros basis basis' Hb H; [discriminate|].
  cbn [simplex] in H.
  destruct (simplex_step t basis) as [|b1|] eqn:E; try discriminate.
  - inversion H; subst. assumption.
  - apply (IH b1); [|assumption].
    unfold simplex_step in E.
    destruct (all_some _) as [rs|]; [|discriminate].
    match type of E with (if ?c then _ else _) = _ => destruct c end;
      [discriminate|].
    destruct (argmin snd rs) as [[entering r]|]; [|discriminate].
    destruct (pivot t basis entering) as [b2|] eqn:P; [|discriminate].
    inversion E; subst. eapply pivot_flows_notneg; eassumption.
Qed.

(** Section 4.1 saturates cells with the smaller of two amounts that are
    not negative, and leaves amounts that are not negative. *)
Lemma build_flows_notneg t : forall fuel rs rd ar ac acc,
  all_notneg rs -> all_notneg rd -> flows_notneg acc ->
  flows_notneg (build fuel t rs rd ar ac acc).
Proof.
  induction fuel as [|fuel IH]; intros rs rd ar ac acc Hs Hd Ha; [assumption|].
  cbn [build].
  destruct (argmin (cost_at t) (list_prod ar ac)) as [[i j]|]; [|assumption].
  set (s := nth i rs fzero). set (d := nth j rd fzero).
  assert (Ns : notneg s = true) by (apply all_notneg_nth; assumption).
  assert (Nd : notneg d = true) by (apply all_notneg_nth; assumption).
  set (x := if fltb s d then s else d).
  assert (Nx : notneg x = true) by (unfold x; destruct (fltb s d); assumption).
  assert (Nsx : notneg (f32_sub s x) = true).
  { unfold x. destruct (fltb s d) eqn:E; apply sub_notneg; try assumption.
    apply fltb_irrefl. }
  assert (Ndx : notneg (f32_sub d x) = true).
  { unfold x. destruct (fltb s d) eqn:E; apply sub_notneg; try assumption.
    - apply fltb_asym, E.
    - apply fltb_irrefl. }
  assert (Ha' : flows_notneg (acc ++ [{| row := i; col := j; flow := x |}])).
  { unfold flows_notneg. apply Forall_app. split; [assumption|].
    constructor; [exact Nx|constructor]. }
  destruct (match ar with
            | [_] => false
            | _ => match ac with [_] => true | _ => negb (fltb d s) end
            end);
    apply IH; try assumption; apply all_notneg_set_nth; assumption.
Qed.

Lemma rows_notneg_nth (m : list (list c_float)) i j :
  Forall all_notneg m -> notneg (nth j (nth i m []) fzero) = true.
Proof.
  intros H. apply all_notneg_nth. revert i.
  induction H as [|r m Hr H IH]; intros [|i]; simpl; auto; constructor.
Qed.

Lemma chunks_notneg width : forall count l,
  all_notneg l -> Forall all_notneg (chunks width count l).
Proof.
  induction count as [|count IH]; intros l H; simpl; constructor.
  - apply all_notneg_firstn, H.
  - apply IH, all_notneg_skipn, H.
Qed.

Lemma all_notneg_repeat_zero k : all_notneg (repeat fzero k).
Proof. induction k; simpl; constructor; auto. Qed.

(** The balanced problem of weights and costs that are not negative. *)
Lemma balance_notneg w1 w2 c :
  all_notneg w1 -> all_notneg w2 -> all_notneg c ->
  all_notneg (supply (balance w1 w2 c)) /\
  all_notneg (demand (balance w1 w2 c)) /\
  forall ij, notneg (cost_at (balance w1 w2 c) ij) = true.
Proof.
  intros H1 H2 Hc. unfold balance, cost_at.
  pose proof (chunks_notneg (List.length w2) (List.length w1) c Hc) as Hm.
  pose proof (fsum_notneg w1 H1) as T1. pose proof (fsum_notneg w2 H2) as T2.
  destruct (fltb (fsum w2) (fsum w1)) eqn:E21; cbn [supply demand costs].
  - split; [assumption|]. split.
    + apply Forall_app. split; [assumption|]. constructor; [|constructor].
      apply sub_notneg; try assumption. apply fltb_asym, E21.
    + intros ij. apply rows_notneg_nth. apply Forall_map.
      eapply Forall_impl; [|exact Hm]. intros r Hr. apply Forall_app.
      split; [assumption|]. constructor; [reflexivity|constructor].
  - destruct (fltb (fsum w1) (fsum w2)) eqn:E12; cbn [supply demand costs].
    + split; [|split; [assumption|]].
      * apply Forall_app. split; [assumption|]. constructor; [|constructor].
        apply sub_notneg; assumption.
      * intros ij. apply rows_notneg_nth. apply Forall_app.
        split; [assumption|]. constructor; [|constructor].
        apply all_notneg_repeat_zero.
    + split; [assumption|]. split; [assumption|].
      intros ij. apply rows_notneg_nth, Hm.
Qed.

Lemma extract_notneg t basis :
  flows_notneg basis -> (forall ij, notneg (cost_at t ij) = true) ->
  notneg (extract t basis) = true.
Proof.
  intros Hb Hc. unfold extract. apply fsum_notneg.
  unfold all_notneg. apply Forall_map.
  unfold flows_notneg in Hb. rewrite Forall_forall in *.
  intros b Hin. apply filter_In in Hin.
  apply mul_notneg; [apply Hb, Hin|apply Hc].
Qed.

Lemma fltb_zero_false x : fltb x fzero = false -> notneg x = true.
Proof.
  unfold fltb, fzero.
  destruct x as [s|s| |s m e]; try destruct s; simpl; congruence.
Qed.

(** On costs that are not negative, a distance the solver hands back is
    [>= 0]. *)
Lemma emd_distance_nonneg signature1 signature2 c d :
  all_notneg c -> emd signature1 signature2 c = Distance d ->
  fleb fzero d = true.
Proof.
  unfold emd. intros Hc H.
  destruct (_ || _); [discriminate|].
  destruct (_ || _); [discriminate|].
  destruct (existsb _ _) eqn:Ew; [discriminate|].
  destruct (negb _); [discriminate|].
  set (t := balance (Weights signature1) (Weights signature2) c) in *.
  destruct (simplex _ t (initial_basis t)) as [e|basis] eqn:Es; [discriminate|].
  destruct (is_nan (extract t basis)) eqn:En; [discriminate|].
  inversion H; subst d. clear H.
  assert (Hw : all_notneg (Weights signature1 ++ Weights signature2)).
  { unfold all_notneg. rewrite Forall_forall. intros w Hin.
    apply fltb_zero_false.
    destruct (fltb w fzero) eqn:E; [|reflexivity].
    assert (existsb (fun w => fltb w fzero)
              (Weights signature1 ++ Weights signature2) = true)
      by (apply existsb_exists; eauto).
    congruence. }
  apply Forall_app in Hw. destruct Hw as [H1 H2].
  destruct (balance_notneg _ _ _ H1 H2 Hc) as [Hs [Hd Hcost]]. fold t in Hs, Hd, Hcost.
  apply fleb_zero_notneg. split; [|assumption].
  apply extract_notneg; [|assumption].
  eapply (simplex_flows_notneg t _ (initial_basis t)); [|eassumption].
  unfold initial_basis. apply build_flows_notneg; try assumption. constructor.
Qed.

Lemma double_to_float_notneg x : notneg x = true -> notneg (double_to_float x) = true.
Proof.
  destruct x as [s|s| |s m e]; try destruct s; simpl; try congruence.
  intros _. apply binary_round_notneg.
Qed.

Lemma later_None p q : later p q = None -> p = None /\ q = None.
Proof. destruct p, q; simpl; intros; try discriminate; auto. Qed.

(** The conversion of a number [>= 0] that leaves no exception set. *)
Lemma nonneg_number_notneg x :
  nonneg_number x = true -> snd (PyFloat_AsDouble x) = None ->
  notneg (double_to_float (fst (PyFloat_AsDouble x))) = true.
Proof.
  destruct x; try discriminate; cbn [nonneg_number PyFloat_AsDouble].
  - intros H _. apply double_to_float_notneg. apply fleb_zero_notneg in H. tauto.
  - intros H. apply Z.leb_le in H.
    pose proof (binary_normalize_notneg 53 1024 z 0 H) as N.
    unfold double_of_Z. destruct (binary_normalize 53 1024 z 0 false);
      cbn [fst snd]; intros P; try discriminate P;
      apply double_to_float_notneg; exact N.
Qed.

Lemma floats_from_notneg seq : forall count i,
  nonneg_from seq count i = true -> pending_from seq count i = None ->
  all_notneg (floats_from seq count i).
Proof.
  induction count as [|count IH]; intros i H P; [constructor|].
  cbn [nonneg_from pending_from floats_from] in *.
  unfold item_pending, item_float in *.
  destruct (PySequence_GetItem seq i) as [x|]; [|discriminate].
  apply andb_true_iff in H. destruct H as [Hx Hrest].
  apply later_None in P. destruct P as [Px Prest].
  constructor; [apply nonneg_number_notneg; assumption|].
  apply IH; assumption.
Qed.

Lemma float_to_double_nonneg d :
  fleb fzero d = true -> fleb fzero (float_to_double d) = true.
Proof.
  intros H. destruct d as [s|s| |s m e]; try exact H.
  apply fleb_zero_notneg in H. destruct H as [H _].
  destruct s; [discriminate|]. cbn [float_to_double].
  pose proof (binary_round_sign 53 1024 false m e) as S.
  apply fleb_zero_notneg.
  destruct (binary_round 53 1024 false m e); simpl; subst; tauto.
Qed.

(** ** The distance *)

(** C6.  When the items of cost that the call reads are numbers [>= 0], a
    distance that [compute_emd] returns (with no exception left set) is
    [>= 0].  The weights need no hypothesis: the solver rejects an empty
    distribution and a negative weight itself. *)
Theorem distance_nonnegative weight1 weight2 cost r :
  nonneg_upto cost (PySequence_Size weight1 * PySequence_Size weight2) = true ->
  compute_emd emd weight1 weight2 cost = Normal (PyFloat r) None ->
  fleb fzero r = true.
Proof.
  intros Hc H. unfold compute_emd in H.
  destruct (compute_emd_args weight1 weight2 cost) as [[[s1 s2] c] p| | |] eqn:E;
    try discriminate.
  cbn [bind call_emd] in H.
  destruct (emd s1 s2 c) as [d|e] eqn:Ed; [|discriminate].
  inversion H; subst r. clear H.
  assert (Hp : p = None) by (destruct p; [discriminate|reflexivity]).
  destruct (compute_emd_args_inv _ _ _ _ _ _ _ E) as [N1 [N2 [_ [_ [C P]]]]].
  rewrite Hp in P. symmetry in P.
  apply later_None in P. destruct P as [_ P].
  apply later_None in P. destruct P as [_ P].
  rewrite N1, N2 in *.
  apply float_to_double_nonneg.
  apply (emd_distance_nonneg s1 s2 c); [|assumption].
  rewrite C. apply floats_from_notneg; assumption.
Qed.

Lemma distance_nonnegative_witness :
  compute_emd emd (ints [3; 4; 5]) (ints [2; 2; 2; 1])
    (ints [4; 3; 2; 1; 5; 1; 6; 7; 8; 2; 1; 3])
  = Normal (PyFloat (double_of_Z 13)) None /\
  fleb fzero (double_of_Z 13) = true.
Proof.
  split; [vm_compute; reflexivity|].
  apply (distance_nonnegative (ints [3; 4; 5]) (ints [2; 2; 2; 1])
           (ints [4; 3; 2; 1; 5; 1; 6; 7; 8; 2; 1; 3])).
  - reflexivity.
  - vm_compute. reflexivity.
Defined.

(** The other two concrete scenarios of the specification (section 8). *)
Example scenario_one_bin_cost_zero :
  compute_emd emd (ints [1]) (ints [1]) (ints [0])
  = Normal (PyFloat (double_of_Z 0)) None.
Proof. vm_compute. reflexivity. Qed.

Example scenario_equal_bins_matched :
  compute_emd emd (ints [1; 1]) (ints [1; 1]) (ints [0; 2; 2; 0])
  = Normal (PyFloat (double_of_Z 0)) None.
Proof. vm_compute. reflexivity. Qed.

(** Unequal totals: 12 units of supply against 7 of demand; the excess goes
    to the dump bin and the 7 units are matched at cost 13. *)
Example scenario_unbalanced :
  compute_emd emd (ints [3; 4; 5]) (ints [2; 2; 2; 1])
    (ints [4; 3; 2; 1; 5; 1; 6; 7; 8; 2; 1; 3])
  = Normal (PyFloat (double_of_Z 13)) None.
Proof. vm_compute. reflexivity. Qed.

(** C7.  On weights1 = [1], weights2 = [1], cost = [5] the call returns the
    Python float 5.0. *)
Theorem scenario_one_bin_cost_five :
  compute_emd emd (ints [1]) (ints [1]) (ints [5])
  = Normal (PyFloat (double_of_Z 5)) None.
Proof. vm_compute. reflexivity. Qed.

(** C8.  On weights1 = [2, 0], weights2 = [0, 2], cost = [0, 1, 1, 0] the
    call returns the Python float 2.0: the whole mass crosses the cell of
    cost 1 from bin 0 to bin 1. *)
Theorem scenario_forced_cross_matching :
  compute_emd emd (ints [2; 0]) (ints [0; 2]) (ints [0; 1; 1; 0])
  = Normal (PyFloat (double_of_Z 2)) None.
Proof. vm_compute. reflexivity. Qed.

(** * Further properties of the binding *)

Lemma int_of_ssize_fixed v : v = int_of_ssize v -> v <= INT_MAX.
Proof.
  intros H. pose proof (int_of_ssize_range v). unfold INT_MAX.
  rewrite <- H in *. lia.
Qed.

(** X1.  When the solver is called.  On a stack of less than 2^63 bytes
    the code before line 97 runs to its end, nothing raised and every step
    defined, exactly when lines 29-54 are passed and everything the three
    loops ask for is there and is an int or a float. *)
Theorem runs_to_solver_iff_accepted stack weight1 weight2 cost :
  stack < 2 ^ 63 ->
  runs_to_solver stack weight1 weight2 cost
  = run_accepted stack weight1 weight2 cost.
Proof.
  intros B. unfold runs_to_solver, run_accepted.
  destruct (compute_emd_run stack weight1 weight2 cost) as [r p| | |] eqn:E.
  - destruct (compute_emd_run_Normal_inv _ _ _ _ _ _ B E) as [A [R _]].
    rewrite A, R. reflexivity.
  - destruct (arrays_allocated stack weight1 weight2) eqn:A; [|reflexivity].
    destruct (all_read is_number weight1 weight2 cost) eqn:R; [|reflexivity].
    rewrite compute_emd_run_numbers in E by assumption. discriminate.
  - destruct (arrays_allocated stack weight1 weight2) eqn:A; [|reflexivity].
    destruct (all_read is_number weight1 weight2 cost) eqn:R; [|reflexivity].
    rewrite compute_emd_run_numbers in E by assumption. discriminate.
  - destruct (arrays_allocated stack weight1 weight2) eqn:A; [|reflexivity].
    destruct (all_read is_number weight1 weight2 cost) eqn:R; [|reflexivity].
    rewrite compute_emd_run_numbers in E by assumption. discriminate.
Qed.

Lemma runs_to_solver_iff_accepted_witness :
  runs_to_solver 8388608 (builtin (ints [1; 2])) (builtin (ints [3]))
    (builtin (ints [5; 6; 7]))
  = run_accepted 8388608 (builtin (ints [1; 2])) (builtin (ints [3]))
      (builtin (ints [5; 6; 7])).
Proof.
  apply (runs_to_solver_iff_accepted 8388608 (builtin (ints [1; 2]))
           (builtin (ints [3])) (builtin (ints [5; 6; 7]))).
  reflexivity.
Defined.

(** X2.  The arrays handed to the solver.  In a run that gets to the solver
    with every step defined, on a stack of less than 2^63 bytes, the sizes n
    and m of the two signatures are the lengths the weights gave at the
    second call of [PySequence_Size], they and their product lie between 0
    and INT_MAX, the three arrays hold exactly n, m and n * m entries, and
    the stack has held them. *)
Theorem solver_arrays_have_declared_sizes stack weight1 weight2 cost
    signature1 signature2 c p :
  stack < 2 ^ 63 ->
  compute_emd_run stack weight1 weight2 cost
    = Normal (signature1, signature2, c) p ->
  n signature1 = PySequence_Size_at weight1 2 /\
  n signature2 = PySequence_Size_at weight2 3 /\
  0 <= n signature1 <= INT_MAX /\ 0 <= n signature2 <= INT_MAX /\
  n signature1 * n signature2 <= INT_MAX /\
  Z.of_nat (List.length (Weights signature1)) = n signature1 /\
  Z.of_nat (List.length (Weights signature2)) = n signature2 /\
  Z.of_nat (List.length c) = n signature1 * n signature2 /\
  8 * n signature1 + 8 * n signature2 + 8 * (n signature1 * n signature2) <= stack.
Proof.
  intros B H.
  destruct (compute_emd_run_Normal_inv _ _ _ _ _ _ B H) as [A [_ [R _]]].
  destruct (arrays_allocated_spec _ _ _ A)
    as [S1 [S2 [E1 [E2 [L1 [L2 [L12 [F _]]]]]]]].
  unfold run_arrays, loop_array in R. inversion R; subst.
  cbn [n Weights loop_object loop_bound loop_start].
  rewrite !floats_at_length, !Z2Nat.id by lia.
  repeat split; try lia; congruence.
Qed.

Lemma solver_arrays_have_declared_sizes_witness :
  let weight1 := builtin (ints [1; 2]) in
  let weight2 := builtin (ints [3]) in
  let signature1 := {| n := 2; Weights := [float_of_Z 1; float_of_Z 2] |} in
  let signature2 := {| n := 1; Weights := [float_of_Z 3] |} in
  let c := [float_of_Z 5; float_of_Z 6] in
  n signature1 = PySequence_Size_at weight1 2 /\
  n signature2 = PySequence_Size_at weight2 3 /\
  0 <= n signature1 <= INT_MAX /\ 0 <= n signature2 <= INT_MAX /\
  n signature1 * n signature2 <= INT_MAX /\
  Z.of_nat (List.length (Weights signature1)) = n signature1 /\
  Z.of_nat (List.length (Weights signature2)) = n signature2 /\
  Z.of_nat (List.length c) = n signature1 * n signature2 /\
  8 * n signature1 + 8 * n signature2 + 8 * (n signature1 * n signature2)
    <= 8388608.
Proof.
  intros weight1 weight2 signature1 signature2 c.
  apply (solver_arrays_have_declared_sizes 8388608 weight1 weight2
           (builtin (ints [5; 6; 7])) signature1 signature2 c None);
    reflexivity.
Defined.

(** The element loop looks at items [i .. i + count - 1] only. *)
Lemma read_items_ext seq seq' msg : forall count i,
  (forall j, i <= j < i + Z.of_nat count ->
     PySequence_GetItem seq j = PySequence_GetItem seq' j) ->
  read_items seq msg count i = read_items seq' msg count i.
Proof.
  induction count as [|count IH]; intros i H; [reflexivity|].
  cbn [read_items]. rewrite <- (H i) by lia.
  destruct (PySequence_GetItem seq i) as [y|]; [|reflexivity].
  destruct (negb (PyFloat_Check y) && negb (PyInt_Check y)); [reflexivity|].
  rewrite (IH (i + 1)) by (intros j Hj; apply H; lia). reflexivity.
Qed.

(** Two values of cost with the same first length1 * length2 items give the
    same call. *)
Lemma compute_emd_args_cost_ext weight1 weight2 cost cost' :
  (forall j, 0 <= j < PySequence_Size weight1 * PySequence_Size weight2 ->
     PySequence_GetItem cost j = PySequence_GetItem cost' j) ->
  compute_emd_args weight1 weight2 cost = compute_emd_args weight1 weight2 cost'.
Proof.
  intros H. unfold compute_emd_args.
  destruct (PySequence_Check weight1); [|reflexivity].
  destruct (PySequence_Check weight2); [|reflexivity].
  cbn [negb].
  destruct (Z.eqb_spec (PySequence_Size weight1)
              (int_of_ssize (PySequence_Size weight1))) as [E1|]; [|reflexivity].
  destruct (Z.eqb_spec (PySequence_Size weight2)
              (int_of_ssize (PySequence_Size weight2))) as [E2|]; [|reflexivity].
  cbn [negb]. rewrite <- E1, <- E2.
  destruct (INT_MAX <? _); [reflexivity|].
  rewrite (read_items_ext cost cost'); [reflexivity|].
  intros j Hj. apply H. lia.
Qed.

(** X3.  Items of cost beyond length1 * length2.  Whatever is appended to a cost
    list that already has length1 * length2 items, numbers or not, changes
    nothing in the call: same arrays, same exception, same undefined
    behaviour, same result. *)
Theorem cost_tail_ignored emd0 weight1 weight2 items extra :
  PySequence_Size weight1 * PySequence_Size weight2
    <= Z.of_nat (List.length items) ->
  compute_emd emd0 weight1 weight2 (PyList (items ++ extra))
  = compute_emd emd0 weight1 weight2 (PyList items).
Proof.
  intros H. unfold compute_emd. f_equal.
  apply compute_emd_args_cost_ext. intros j Hj.
  unfold PySequence_GetItem.
  destruct (Z.ltb_spec j 0); [lia|]. destruct (Z.ltb_spec j 0); [lia|].
  apply nth_error_app1. lia.
Qed.

Lemma cost_tail_ignored_witness :
  compute_emd emd (ints [1]) (ints [2; 3])
    (PyList ([PyLong 5; PyUnicode "x"] ++ [PyNone; PyLong 7]))
  = compute_emd emd (ints [1]) (ints [2; 3]) (PyList [PyLong 5; PyUnicode "x"]).
Proof.
  apply (cost_tail_ignored emd (ints [1]) (ints [2; 3])
           [PyLong 5; PyUnicode "x"] [PyNone; PyLong 7]).
  vm_compute. discriminate.
Defined.

(** X4.  Items that are not there.  None of the three element loops looks at
    what [PySequence_GetItem] returns before handing it to [PyFloat_Check]:
    when the weights pass lines 29-54, the first item that the loops ask
    for and do not get, in a weight as much as in cost, the items before it
    being numbers, is a NULL read through, and the run has no defined
    behaviour from there. *)
Theorem missing_item_unchecked stack emd0 weight1 weight2 cost a k :
  arrays_allocated stack weight1 weight2 = true ->
  first_bad missing weight1 weight2 cost a k = true ->
  compute_emd_run stack weight1 weight2 cost = Undefined NullItem /\
  compute_emd_on stack emd0 weight1 weight2 cost = Undefined NullItem.
Proof.
  intros A H.
  assert (E : compute_emd_run stack weight1 weight2 cost = Undefined NullItem).
  { rewrite compute_emd_run_loops by assumption.
    unfold first_bad in H.
    repeat (apply andb_true_iff in H; destruct H as [H ?]).
    apply Z.leb_le in H. apply Z.ltb_lt in H3.
    unfold loop_reads, loop_item in *.
    assert (S : forall seq msg count t,
              (Z.to_nat k < count)%nat ->
              items_at is_number seq (Z.to_nat k) 0 t = true ->
              missing (PySequence_GetItem_at seq (t + Z.to_nat k) k) = true ->
              read_items_at seq msg count 0 t = Undefined NullItem).
    { intros seq msg count t Hc Hn Hb.
      rewrite (read_items_at_stops seq msg count 0 t (Z.to_nat k) Hc Hn).
      rewrite Z.add_0_l, Z2Nat.id by assumption.
      destruct (PySequence_GetItem_at seq (t + Z.to_nat k) k) as [x|];
        [discriminate|reflexivity]. }
    destruct a; cbn [loop_object loop_bound loop_start] in *.
    - rewrite (S weight1) by (assumption || lia). reflexivity.
    - rewrite read_items_at_numbers by assumption. cbn [bind].
      rewrite (S weight2) by (assumption || lia). reflexivity.
    - apply andb_true_iff in H2. destruct H2 as [N1 N2].
      rewrite !read_items_at_numbers by assumption. cbn [bind].
      rewrite (S cost) by (assumption || lia). reflexivity. }
  split; [exact E|].
  unfold compute_emd_on. rewrite E. reflexivity.
Qed.

Lemma missing_item_unchecked_witness :
  compute_emd_run 8388608 failing (builtin (ints [3])) (builtin (ints [5; 6]))
    = Undefined NullItem /\
  compute_emd_on 8388608 emd failing (builtin (ints [3])) (builtin (ints [5; 6]))
    = Undefined NullItem.
Proof.
  apply (missing_item_unchecked 8388608 emd failing (builtin (ints [3]))
           (builtin (ints [5; 6])) arg_weight1 1);
    vm_compute; reflexivity.
Defined.

(** X5.  Lengths that do not fit in an [int].  A weight that answers both
    calls of [PySequence_Size] with the same length, of more than INT_MAX
    items, is turned away by the comparison of line 42 or 47, the first
    weight before the second, without any item being read. *)
Theorem overlong_weight_rejected stack emd0 weight1 weight2 cost :
  sq_check weight1 = true -> sq_check weight2 = true ->
  PySequence_Size_at weight1 2 = PySequence_Size_at weight1 0 ->
  PySequence_Size_at weight2 3 = PySequence_Size_at weight2 1 ->
  INT_MAX < PySequence_Size_at weight1 0 \/
  INT_MAX < PySequence_Size_at weight2 1 ->
  compute_emd_on stack emd0 weight1 weight2 cost
  = Raised PyExc_TypeError
      (if INT_MAX <? PySequence_Size_at weight1 0
       then "feature1 and weight1 must be the same"
       else "feature2 and weight2 must be the same").
Proof.
  intros S1 S2 E1 E2 H. unfold compute_emd_on, compute_emd_run.
  rewrite S1, S2. cbn [negb]. cbv zeta. rewrite E1, E2.
  assert (Big : forall v, INT_MAX < v -> (v =? int_of_ssize v) = false).
  { intros v Hv. apply Z.eqb_neq. intros E.
    apply int_of_ssize_fixed in E. lia. }
  destruct (Z.ltb_spec INT_MAX (PySequence_Size_at weight1 0)) as [B1|B1].
  - rewrite Big by assumption. reflexivity.
  - pose proof (PySequence_Size_at_range weight1 0).
    rewrite (int_of_ssize_id (PySequence_Size_at weight1 0)) by lia.
    rewrite Z.eqb_refl. cbn [negb].
    rewrite Big by lia. reflexivity.
Qed.

Lemma overlong_weight_rejected_witness :
  compute_emd_on 8388608 emd (builtin (ints [1])) (builtin (PyRange (2 ^ 40)))
    (builtin PyNone)
  = Raised PyExc_TypeError
      (if INT_MAX <? PySequence_Size_at (builtin (ints [1])) 0
       then "feature1 and weight1 must be the same"
       else "feature2 and weight2 must be the same").
Proof.
  apply (overlong_weight_rejected 8388608 emd (builtin (ints [1]))
           (builtin (PyRange (2 ^ 40))) (builtin PyNone));
    try reflexivity.
  right. reflexivity.
Defined.

(** X6.  The product of the lengths.  When both lengths fit in an [int] and
    their product does not, the multiplication length1 * length2 of line 54
    overflows: the call has no defined behaviour, and this before any item
    of any argument is looked at. *)
Theorem length_product_overflow emd0 weight1 weight2 cost :
  PySequence_Check weight1 = true -> PySequence_Check weight2 = true ->
  PySequence_Size weight1 <= INT_MAX -> PySequence_Size weight2 <= INT_MAX ->
  INT_MAX < PySequence_Size weight1 * PySequence_Size weight2 ->
  compute_emd emd0 weight1 weight2 cost = Undefined IntOverflow.
Proof.
  intros S1 S2 B1 B2 B12. unfold compute_emd, compute_emd_args.
  rewrite S1, S2. cbn [negb].
  pose proof (PySequence_Size_nonneg _ S1).
  pose proof (PySequence_Size_nonneg _ S2).
  rewrite !int_of_ssize_small by lia. rewrite !Z.eqb_refl. cbn [negb].
  destruct (Z.ltb_spec INT_MAX (PySequence_Size weight1 * PySequence_Size weight2));
    [reflexivity|lia].
Qed.

Lemma length_product_overflow_witness :
  compute_emd emd (PyRange 65536) (PyRange 65536) PyNone = Undefined IntOverflow.
Proof.
  apply (length_product_overflow emd (PyRange 65536) (PyRange 65536) PyNone);
    solve [reflexivity | vm_compute; discriminate].
Defined.

(** ** Ints too large for a double *)










(** ** The stack *)

(** X13.  Arrays larger than the stack.  The three arrays are taken from
    the stack by [alloca], which cannot fail in an orderly way: when lines
    29-50 are passed with lengths whose product fits in an [int], and the
    three arrays together are larger than what is left of the stack, the
    run has no defined behaviour, and this before any item is asked for,
    so that no TypeError is raised for items that are no numbers. *)
Theorem arrays_exhaust_stack stack emd0 weight1 weight2 cost :
  sq_check weight1 = true -> sq_check weight2 = true ->
  PySequence_Size_at weight1 2 = length1_of weight1 ->
  PySequence_Size_at weight2 3 = length2_of weight2 ->
  0 <= length1_of weight1 -> 0 <= length2_of weight2 ->
  length1_of weight1 * length2_of weight2 <= INT_MAX ->
  stack < 8 * length1_of weight1 + 8 * length2_of weight2
          + 8 * (length1_of weight1 * length2_of weight2) ->
  compute_emd_run stack weight1 weight2 cost = Undefined StackExhausted /\
  compute_emd_on stack emd0 weight1 weight2 cost = Undefined StackExhausted.
Proof.
  intros S1 S2 E1 E2 P1 P2 L12 F.
  assert (E : compute_emd_run stack weight1 weight2 cost
              = Undefined StackExhausted).
  { unfold compute_emd_run. rewrite S1, S2. cbn [negb]. cbv zeta.
    fold (length1_of weight1) (length2_of weight2).
    rewrite E1, E2, !Z.eqb_refl. cbn [negb].
    pose proof (int_of_ssize_range (PySequence_Size_at weight1 0)) as R1.
    pose proof (int_of_ssize_range (PySequence_Size_at weight2 1)) as R2.
    fold (length1_of weight1) in R1. fold (length2_of weight2) in R2.
    assert (P12 : 0 <= length1_of weight1 * length2_of weight2)
      by (apply Z.mul_nonneg_nonneg; assumption).
    rewrite !alloca_request_fits by (unfold INT_MAX in *; lia).
    destruct (Z.ltb_spec stack (8 * length1_of weight1)); [reflexivity|].
    destruct (Z.ltb_spec stack (8 * length1_of weight1 + 8 * length2_of weight2));
      [reflexivity|].
    destruct (Z.ltb_spec (length1_of weight1 * length2_of weight2) INT_MIN);
      [unfold INT_MIN in *; lia|].
    destruct (Z.ltb_spec INT_MAX (length1_of weight1 * length2_of weight2));
      [lia|].
    cbn [orb].
    destruct (Z.ltb_spec stack (8 * length1_of weight1 + 8 * length2_of weight2
                                + 8 * (length1_of weight1 * length2_of weight2)));
      [reflexivity|lia]. }
  split; [exact E|].
  unfold compute_emd_on. rewrite E. reflexivity.
Qed.

Lemma arrays_exhaust_stack_witness :
  compute_emd_run 8388608 (repeated PyNone 1100000) (builtin (ints []))
    (builtin PyNone) = Undefined StackExhausted /\
  compute_emd_on 8388608 emd (repeated PyNone 1100000) (builtin (ints []))
    (builtin PyNone) = Undefined StackExhausted.
Proof.
  apply (arrays_exhaust_stack 8388608 emd (repeated PyNone 1100000)
           (builtin (ints [])) (builtin PyNone));
    vm_compute; solve [reflexivity | discriminate].
Defined.

(** X14.  A length that cannot be told.  When [PySequence_Size] fails on
    the first weight at both calls (as for range(2**63), whose length is no
    [Py_ssize_t]), the -1 it returns is taken for the length: line 42
    compares -1 with -1 and passes, and, the second weight passing line 47,
    line 52 asks [alloca] for 2^64 - 8 bytes, which no stack holds: the run
    has no defined behaviour. *)
Theorem failed_size_taken_for_length stack emd0 weight1 weight2 cost :
  stack < 2 ^ 63 ->
  sq_check weight1 = true -> sq_check weight2 = true ->
  PySequence_Size_at weight1 0 = -1 -> PySequence_Size_at weight1 2 = -1 ->
  PySequence_Size_at weight2 3 = length2_of weight2 ->
  length1_of weight1 = -1 /\
  alloca_request (length1_of weight1) = 2 ^ 64 - 8 /\
  compute_emd_on stack emd0 weight1 weight2 cost = Undefined StackExhausted.
Proof.
  intros B S1 S2 F0 F2 E2.
  assert (L : length1_of weight1 = -1) by (unfold length1_of; rewrite F0; reflexivity).
  split; [exact L|]. split; [rewrite L; reflexivity|].
  unfold compute_emd_on, compute_emd_run. rewrite S1, S2. cbn [negb]. cbv zeta.
  fold (length1_of weight1) (length2_of weight2).
  rewrite E2, F2, L, !Z.eqb_refl. cbn [negb].
  change (alloca_request (-1)) with (2 ^ 64 - 8).
  destruct (Z.ltb_spec stack (2 ^ 64 - 8)); [reflexivity|lia].
Qed.

Lemma failed_size_taken_for_length_witness :
  length1_of (builtin (PyRange (2 ^ 63))) = -1 /\
  alloca_request (length1_of (builtin (PyRange (2 ^ 63)))) = 2 ^ 64 - 8 /\
  compute_emd_on 8388608 emd (builtin (PyRange (2 ^ 63))) (builtin (ints []))
    (builtin PyNone) = Undefined StackExhausted.
Proof.
  apply (failed_size_taken_for_length 8388608 emd (builtin (PyRange (2 ^ 63)))
           (builtin (ints [])) (builtin PyNone));
    reflexivity.
Defined.

(** ** Promotion to double is exact *)

Lemma iter_pos_shr_1_exact : forall d m,
  iter_pos shr_1 d
    {| shr_m := Zpos (Pos.iter xO m d); shr_r := false; shr_s := false |}
  = {| shr_m := Zpos m; shr_r := false; shr_s := false |}.
Proof.
  induction d as [d IH|d IH|]; intros m; cbn [iter_pos Pos.iter].
  - cbn [shr_1 orb]. rewrite IH, IH. reflexivity.
  - rewrite IH, IH. reflexivity.
  - reflexivity.
Qed.

(** A canonical number within the exponent range is its own rounding. *)
Lemma binary_round_aux_canonical prec emax s m e :
  fexp prec emax (Zdigits2 (Zpos m) + e) = e -> e <= emax - prec ->
  binary_round_aux prec emax s (Zpos m) e loc_Exact = S754_finite s m e.
Proof.
  intros C B. unfold binary_round_aux, shr_fexp.
  cbn [shr_record_of_loc]. rewrite C, Z.sub_diag. cbn [shr shr_m loc_of_shr_record
    round_nearest_even shr_record_of_loc].
  rewrite C, Z.sub_diag. cbn [shr shr_m].
  destruct (Z.leb_spec e (emax - prec)); [reflexivity|lia].
Qed.

Lemma valid_binary32_finite m e :
  bounded 24 128 m e = true ->
  Zdigits2 (Zpos m) <= 24 /\ -149 <= e <= 104 /\
  fexp 24 128 (Zdigits2 (Zpos m) + e) = e.
Proof.
  unfold bounded, canonical_mantissa. intros H.
  apply andb_true_iff in H. destruct H as [C B].
  apply Z.eqb_eq in C. apply Z.leb_le in B.
  change (Zpos (digits2_pos m)) with (Zdigits2 (Zpos m)) in C.
  unfold fexp, emin in *. lia.
Qed.

(** The promotion of a binary32 number, and its way back. *)
Lemma float_to_double_finite s m e :
  bounded 24 128 m e = true ->
  exists d : positive,
    Zpos d = e - fexp 53 1024 (Zdigits2 (Zpos m) + e) /\
    float_to_double (S754_finite s m e)
    = S754_finite s (Pos.iter xO m d) (fexp 53 1024 (Zdigits2 (Zpos m) + e)).
Proof.
  intros V. destruct (valid_binary32_finite m e V) as [D [E C]].
  set (t := fexp 53 1024 (Zdigits2 (Zpos m) + e)).
  assert (Ht : t < e) by (unfold t, fexp, emin; lia).
  destruct (e - t) as [|d|d] eqn:Ed; try lia.
  exists d. split; [reflexivity|].
  cbn [float_to_double]. unfold binary_round.
  change (Zpos (digits2_pos m)) with (Zdigits2 (Zpos m)). fold t.
  pose proof (shl_align_spec m e t) as [A _].
  unfold shl_align in *. replace (t - e) with (Zneg d) in * by lia.
  cbn [fst] in A.
  apply binary_round_aux_canonical.
  - rewrite A, Zdigits2_mul_pow2 by lia.
    replace (Zdigits2 (Zpos m) + (e - Z.min e t) + t)
      with (Zdigits2 (Zpos m) + e) by lia.
    reflexivity.
  - unfold t, fexp, emin. lia.
Qed.

Lemma float_double_float f :
  valid_binary 24 128 f = true -> double_to_float (float_to_double f) = f.
Proof.
  destruct f as [s|s| |s m e]; try reflexivity. cbn [valid_binary]. intros V.
  destruct (float_to_double_finite s m e V) as [d [Hd ->]].
  destruct (valid_binary32_finite m e V) as [D [E C]].
  set (t := fexp 53 1024 (Zdigits2 (Zpos m) + e)) in *.
  cbn [double_to_float]. unfold binary_round.
  change (Zpos (digits2_pos (Pos.iter xO m d)))
    with (Zdigits2 (Zpos (Pos.iter xO m d))).
  assert (A : Zpos (Pos.iter xO m d) = Zpos m * 2 ^ Zpos d).
  { pose proof (shl_align_spec m e t) as [A _]. unfold shl_align in A.
    replace (t - e) with (Zneg d) in A by lia. cbn [fst] in A.
    rewrite A. f_equal. f_equal. lia. }
  assert (Dz : Zdigits2 (Zpos (Pos.iter xO m d)) + t = Zdigits2 (Zpos m) + e).
  { rewrite A, Zdigits2_mul_pow2 by lia. lia. }
  rewrite Dz, C. unfold shl_align. rewrite <- Hd.
  unfold binary_round_aux, shr_fexp. rewrite Dz, C, <- Hd.
  cbn [shr_record_of_loc shr]. rewrite iter_pos_shr_1_exact.
  cbn [shr_m loc_of_shr_record round_nearest_even].
  replace (t + Zpos d) with e by lia.
  rewrite C, Z.sub_diag. cbn [shr_record_of_loc shr shr_m].
  destruct (Z.leb_spec e (128 - 24)); [reflexivity|lia].
Qed.

(** X8.  The value handed back.  The promotion of the solver's [float] to the
    [double] of the Python float loses nothing: narrowed again, the double
    that is returned is the solver's distance, so what the caller gets is
    always a double that is exactly representable in single precision. *)
Theorem returned_double_is_exact emd0 weight1 weight2 cost
    signature1 signature2 c p distance :
  compute_emd_args weight1 weight2 cost = Normal (signature1, signature2, c) p ->
  emd0 signature1 signature2 c = Distance distance ->
  valid_binary 24 128 distance = true ->
  compute_emd emd0 weight1 weight2 cost
    = Normal (PyFloat (float_to_double distance)) p /\
  double_to_float (float_to_double distance) = distance /\
  representable_in_float (float_to_double distance).
Proof.
  intros E D V. split; [|split].
  - unfold compute_emd. rewrite E. cbn [bind call_emd]. rewrite D.
    destruct p; reflexivity.
  - apply float_double_float, V.
  - exists distance. split; [exact V|reflexivity].
Qed.

Lemma returned_double_is_exact_witness :
  compute_emd emd (ints [3; 4; 5]) (ints [2; 2; 2; 1])
    (ints [4; 3; 2; 1; 5; 1; 6; 7; 8; 2; 1; 3])
    = Normal (PyFloat (float_to_double (float_of_Z 13))) None /\
  double_to_float (float_to_double (float_of_Z 13)) = float_of_Z 13 /\
  representable_in_float (float_to_double (float_of_Z 13)).
Proof.
  apply (returned_double_is_exact emd (ints [3; 4; 5]) (ints [2; 2; 2; 1])
           (ints [4; 3; 2; 1; 5; 1; 6; 7; 8; 2; 1; 3])
           {| n := 3; Weights := map float_of_Z [3; 4; 5] |}
           {| n := 4; Weights := map float_of_Z [2; 2; 2; 1] |}
           (map float_of_Z [4; 3; 2; 1; 5; 1; 6; 7; 8; 2; 1; 3]) None).
  - reflexivity.
  - vm_compute. reflexivity.
  - reflexivity.
Defined.

(** X9.  Which float inputs reach the solver unchanged.  The array entry stored
    for a Python float, read back as a double, is the float's own value
    exactly when that value is representable in single precision. *)
Theorem float_item_unchanged_iff_representable weight1 weight2 cost r p a k x :
  compute_emd_args weight1 weight2 cost = Normal r p ->
  0 <= k < arg_bound a weight1 weight2 ->
  PySequence_GetItem (arg_object a weight1 weight2 cost) k = Some (PyFloat x) ->
  exists f,
    nth_error (arg_array a r) (Z.to_nat k) = Some f /\
    (float_to_double f = x <-> representable_in_float x).
Proof.
  intros E Hk Hx. destruct r as [[s1 s2] c].
  destruct (compute_emd_args_inv _ _ _ _ _ _ _ E) as [N1 [N2 [W1 [W2 [C _]]]]].
  rewrite N1, N2 in *.
  exists (double_to_float x). split.
  - destruct a; cbn [arg_array arg_object arg_bound fst snd] in *;
      rewrite ?W1, ?W2, ?C;
      rewrite (floats_of_nth _ _ k (PyFloat x)) by assumption; reflexivity.
  - split.
    + intros H. exists (double_to_float x).
      split; [apply double_to_float_valid|exact H].
    + intros [f [V <-]]. rewrite float_double_float by assumption. reflexivity.
Qed.

Lemma float_item_unchanged_iff_representable_witness :
  exists f,
    nth_error
      (arg_array arg_weight1
         ({| n := 1; Weights := [double_to_float one_tenth] |},
          {| n := 1; Weights := [float_of_Z 1] |}, [float_of_Z 5]))
      (Z.to_nat 0) = Some f /\
    (float_to_double f = one_tenth <-> representable_in_float one_tenth).
Proof.
  apply (float_item_unchanged_iff_representable
           (PyList [PyFloat one_tenth]) (ints [1]) (ints [5])
           ({| n := 1; Weights := [double_to_float one_tenth] |},
            {| n := 1; Weights := [float_of_Z 1] |}, [float_of_Z 5])
           None arg_weight1 0 one_tenth).
  - reflexivity.
  - vm_compute. split; [discriminate|reflexivity].
  - reflexivity.
Defined.

(** ** Single precision, end to end *)



(** 0.1 is a double that is not representable in single precision: the
    solver sees 13421773 * 2^-27 in its place. *)
Example one_tenth_perturbed :
  double_to_float one_tenth = S754_finite false 13421773 (-27) /\
  float_to_double (double_to_float one_tenth) <> one_tenth /\
  ~ representable_in_float one_tenth.
Proof.
  assert (N : float_to_double (double_to_float one_tenth) <> one_tenth)
    by (vm_compute; discriminate).
  split; [reflexivity|]. split; [exact N|].
  intros [f [V E]]. apply N. rewrite <- E.
  rewrite float_double_float by assumption. reflexivity.
Qed.

(** ** The arguments of the call *)

Lemma PyDict_GetItemString_in keywds key v :
  PyDict_GetItemString keywds key = Some v -> In key (map fst keywds).
Proof.
  induction keywds as [|[k w] keywds IH]; cbn [PyDict_GetItemString map fst];
    [discriminate|].
  destruct (String.eqb_spec k key) as [->|_]; [left; reflexivity|].
  intros H. right. apply IH, H.
Qed.

(** A parse that succeeds has taken every slot beyond the positional
    arguments from the keywords, one keyword each. *)
Lemma parse_slots_inv args keywds : forall names i nkwargs objs left,
  parse_slots names i args keywds nkwargs = Some (objs, left) ->
  nkwargs = (left + List.length (skipn (List.length args - i) names))%nat /\
  forall name, In name (skipn (List.length args - i) names) ->
    In name (map fst keywds).
Proof.
  induction names as [|name names IH]; intros i nkwargs objs left H.
  - cbn [parse_slots] in H. inversion H; subst. rewrite skipn_nil.
    split; [cbn; lia|intros ? []].
  - cbn [parse_slots] in H.
    destruct (nth_error args i) as [a|] eqn:Ea.
    + assert (i < List.length args)%nat
        by (apply nth_error_Some; congruence).
      destruct (parse_slots names (S i) args keywds nkwargs) as [[l k]|] eqn:E;
        [|discriminate].
      inversion H; subst. apply IH in E.
      replace (List.length args - i)%nat with (S (List.length args - S i)) by lia.
      exact E.
    + apply nth_error_None in Ea.
      destruct nkwargs as [|nk]; [discriminate|].
      destruct (PyDict_GetItemString keywds name) as [a|] eqn:Eg; [|discriminate].
      destruct (parse_slots names (S i) args keywds nk) as [[l k]|] eqn:E;
        [|discriminate].
      inversion H; subst. apply IH in E.
      replace (List.length args - S i)%nat with O in E by lia.
      replace (List.length args - i)%nat with O by lia.
      cbn [skipn List.length] in *. destruct E as [E1 E2]. split; [lia|].
      intros nm [<-|Hin]; [eapply PyDict_GetItemString_in; eassumption|].
      apply E2, Hin.
Qed.

Lemma parse_success_inv args keywds r :
  PyArg_ParseTupleAndKeywords args keywds = Some r ->
  (List.length args + List.length keywds = 3)%nat /\
  incl (map fst keywds) (skipn (List.length args) kwlist).
Proof.
  unfold PyArg_ParseTupleAndKeywords. intros H.
  destruct (Nat.ltb_spec (List.length kwlist) (List.length args + List.length keywds))
    as [|Hle]; [discriminate|].
  destruct (parse_slots kwlist 0 args keywds (List.length keywds))
    as [[objs left]|] eqn:E; [|discriminate].
  assert (left = O).
  { destruct objs as [|? [|? [|? [|]]]]; try discriminate.
    destruct left; [reflexivity|discriminate]. }
  subst left. apply parse_slots_inv in E. rewrite Nat.sub_0_r in E.
  destruct E as [E1 E2]. cbn [plus] in E1.
  assert (Hk : (List.length args <= 3)%nat) by (cbn [kwlist List.length] in Hle; lia).
  split.
  - rewrite E1. rewrite length_skipn. cbn [kwlist List.length]. lia.
  - apply NoDup_length_incl.
    + destruct (List.length args) as [|[|[|[|k]]]]; cbn [skipn kwlist];
        repeat constructor; cbn; intuition discriminate.
    + rewrite length_map. lia.
    + exact E2.
Qed.

(** X10.  Arguments by position or by name.  When the call supplies three
    arguments in all, each slot being filled by position or by its name in
    kwlist, the objects of the three slots are the ones the function works
    on, in whatever order the keyword arguments are written. *)
Theorem arguments_by_position_or_name emd0 args keywds weight1 weight2 cost :
  (List.length args + List.length keywds = 3)%nat ->
  argument_slot args keywds 0 = Some weight1 ->
  argument_slot args keywds 1 = Some weight2 ->
  argument_slot args keywds 2 = Some cost ->
  compute_emd_entry emd0 args keywds
  = Called (compute_emd emd0 weight1 weight2 cost).
Proof.
  unfold compute_emd_entry, PyArg_ParseTupleAndKeywords, argument_slot.
  intros Hlen H0 H1 H2.
  destruct (Nat.ltb_spec (List.length kwlist) (List.length args + List.length keywds))
    as [Hgt|_]; [cbn [kwlist List.length] in Hgt; lia|].
  destruct args as [|a0 [|a1 [|a2 [|a3 args]]]]; cbn [List.length] in Hlen;
    try lia;
    destruct keywds as [|kv0 [|kv1 [|kv2 [|kv3 keywds]]]];
    cbn [List.length] in Hlen; try lia;
    cbn [nth_error kwlist nth] in H0, H1, H2;
    cbn [parse_slots kwlist nth_error List.length];
    rewrite ?H0, ?H1, ?H2;
    repeat match goal with H : Some _ = Some _ |- _ => inversion H; clear H end;
    subst; reflexivity.
Qed.

Lemma arguments_by_position_or_name_witness :
  compute_emd_entry emd [ints [1]]
    [("cost"%string, ints [5]); ("weight2"%string, ints [2])]
  = Called (compute_emd emd (ints [1]) (ints [2]) (ints [5])).
Proof.
  apply (arguments_by_position_or_name emd [ints [1]]
           [("cost"%string, ints [5]); ("weight2"%string, ints [2])]);
    reflexivity.
Defined.

(** X11.  Keyword names the function does not know.  A keyword argument whose
    name is not weight1, weight2 or cost, or which names an argument already
    given by position, makes the call fail in the argument parsing: nothing
    of the rest of the function runs.  The names w1, w2 and dist of the
    docstring (line 104) are such names. *)
Theorem stray_keyword_rejected emd0 args keywds :
  stray_keyword args keywds = true ->
  compute_emd_entry emd0 args keywds = ArgumentError.
Proof.
  unfold compute_emd_entry, stray_keyword. intros H.
  destruct (PyArg_ParseTupleAndKeywords args keywds) as [r|] eqn:E;
    [|reflexivity].
  exfalso. apply parse_success_inv in E. destruct E as [_ I].
  apply existsb_exists in H. destruct H as [[k v] [Hin Hk]].
  apply negb_true_iff in Hk.
  assert (Hs : In k (skipn (List.length args) kwlist))
    by (apply I; apply (in_map fst) in Hin; exact Hin).
  assert (existsb (String.eqb (fst (k, v))) (skipn (List.length args) kwlist) = true).
  { apply existsb_exists. exists k. split; [exact Hs|apply String.eqb_refl]. }
  congruence.
Qed.

Lemma stray_keyword_rejected_witness :
  compute_emd_entry emd []
    [("w1"%string, ints [1]); ("w2"%string, ints [1]); ("dist"%string, ints [5])]
  = ArgumentError.
Proof.
  apply (stray_keyword_rejected emd []
           [("w1"%string, ints [1]); ("w2"%string, ints [1]);
            ("dist"%string, ints [5])]).
  reflexivity.
Defined.

(** X12.  The number of arguments.  A call that does not supply exactly three
    arguments, positional and keyword ones together, fails in the argument
    parsing. *)
Theorem wrong_argument_count_rejected emd0 args keywds :
  (List.length args + List.length keywds <> 3)%nat ->
  compute_emd_entry emd0 args keywds = ArgumentError.
Proof.
  unfold compute_emd_entry. intros H.
  destruct (PyArg_ParseTupleAndKeywords args keywds) as [r|] eqn:E;
    [|reflexivity].
  apply parse_success_inv in E. tauto.
Qed.

Lemma wrong_argument_count_rejected_witness :
  compute_emd_entry emd [ints [1]; ints [1]] [] = ArgumentError.
Proof.
  apply (wrong_argument_count_rejected emd [ints [1]; ints [1]] []).
  vm_compute. discriminate.
Defined.
